(** * PubMed data collection: XML records to a delimited table

    A shallow embedding of [code/1_Data_Collection.py] and the properties of
    its record extractor, directory walker, incremental writer and error log.

    Python values are modelled as follows.
    - [str | None] is [option string].
    - An exception is a value of [exn]; code that may raise returns a
      [result]; code that also prints or writes files is a function on the
      [world] (see below).
    - An [xml.etree.ElementTree.Element] is a tag, its [text] ([None] when
      the element holds no character data) and its children in document
      order.  Attributes and tails are never read by the program. *)

From Stdlib Require Import List String Ascii Bool Arith ZArith Lia.
From Stdlib Require Import DecimalString Permutation Sorted OrderedTypeEx.
Import ListNotations.
Local Open Scope string_scope.

Local Set Warnings "-register-all".

(** ** The Python runtime the program relies on *)

Module Py.

(** The exception classes that occur; each carries [str(e)].  An
    exception of any other class is an [OtherException] with the name of
    its class. *)
Inductive exn : Type :=
| AttributeError (msg : string)
| TypeError (msg : string)
| ParseError (msg : string)
| OSError (msg : string)
| OtherException (cls msg : string).

Definition str_of_exn (e : exn) : string :=
  match e with
  | AttributeError m | TypeError m | ParseError m | OSError m => m
  | OtherException _ m => m
  end.

Inductive result (A : Type) : Type :=
| Ok (a : A)
| Raise (e : exn).
Arguments Ok {A} a.
Arguments Raise {A} e.

Definition bind {A B} (r : result A) (k : A -> result B) : result B :=
  match r with
  | Ok a => k a
  | Raise e => Raise e
  end.

(** [try: body except AttributeError: handler] *)
Definition try_except_AttributeError {A} (body handler : result A) : result A :=
  match body with
  | Raise (AttributeError _) => handler
  | r => r
  end.

(** [str(n)] for a natural number. *)
Definition str_of_nat (n : nat) : string :=
  NilZero.string_of_uint (Nat.to_uint n).

(** [s * n] for a string and a count. *)
Fixpoint repeat_string (s : string) (n : nat) : string :=
  match n with
  | O => EmptyString
  | S n' => s ++ repeat_string s n'
  end.

(** [s.rjust(width, '0')]: pad on the left up to [width] characters. *)
Definition zero_pad (width : nat) (s : string) : string :=
  repeat_string "0" (width - String.length s) ++ s.

(** [f'{n:04d}']: sign first, then zeros up to a total width of four. *)
Definition format_04d (n : Z) : string :=
  if (n <? 0)%Z
  then "-" ++ zero_pad 3 (str_of_nat (Z.to_nat (- n)))
  else zero_pad 4 (str_of_nat (Z.to_nat n)).

(** [f'{v}'] for a value that is a string or [None]. *)
Definition format_value (v : option string) : string :=
  match v with
  | Some s => s
  | None => "None"
  end.

Definition startswith (s p : string) : bool := String.prefix p s.

Definition endswith (s p : string) : bool :=
  let n := String.length s in
  let k := String.length p in
  if Nat.ltb n k then false else String.eqb (String.substring (n - k) k s) p.

(** [sep.join(items)] where the items are strings or [None]: the first
    item that is not a string raises [TypeError], naming its index. *)
Fixpoint all_str (i : nat) (items : list (option string)) : result (list string) :=
  match items with
  | [] => Ok []
  | Some s :: rest => bind (all_str (S i) rest) (fun ss => Ok (s :: ss))
  | None :: _ =>
      Raise (TypeError ("sequence item " ++ str_of_nat i
                        ++ ": expected str instance, NoneType found"))
  end.

Definition join (sep : string) (items : list (option string)) : result string :=
  bind (all_str 0 items) (fun ss => Ok (String.concat sep ss)).

(** [os.path.join(a, b)] on a POSIX system. *)
Definition os_path_join (a b : string) : string :=
  if startswith b "/" then b
  else if String.eqb a EmptyString || endswith a "/" then a ++ b
  else a ++ "/" ++ b.

(** [sorted(names)] on strings: the comparison is by code point, and a
    list of strings has one sorted arrangement, so insertion is as good a
    model as any other stable sort. *)
Fixpoint insert_sorted (x : string) (l : list string) : list string :=
  match l with
  | [] => [x]
  | y :: l' => if (x <=? y)%string then x :: l else y :: insert_sorted x l'
  end.

Definition newline : string := String (ascii_of_nat 10) EmptyString.

Fixpoint sorted (l : list string) : list string :=
  match l with
  | [] => []
  | x :: l' => insert_sorted x (sorted l')
  end.

End Py.
Import Py.

Declare Scope py_scope.
Notation "x <- r ;; k" := (Py.bind r (fun x => k))
  (at level 61, r at next level, right associativity) : py_scope.
Local Open Scope py_scope.

(** ** ElementTree *)

Module ET.

Inductive element : Type :=
| Element (tag : string) (text : option string) (children : list element).

Definition tag (e : element) : string :=
  let 'Element t _ _ := e in t.
Definition text (e : element) : option string :=
  let 'Element _ x _ := e in x.
Definition children (e : element) : list element :=
  let 'Element _ _ cs := e in cs.

(** [e.iter()]: the element and all its descendants in document order. *)
Fixpoint iter (e : element) : list element :=
  match e with
  | Element _ _ cs => e :: flat_map iter cs
  end.

(** One step of an ElementPath expression: [tag] selects the children
    with that tag, [.//tag] the descendants with that tag (the context
    element itself excluded). *)
Inductive step : Type :=
| child (t : string)
| descendant (t : string).

Definition has_tag (t : string) (e : element) : bool := String.eqb (tag e) t.

Definition select (s : step) (e : element) : list element :=
  match s with
  | child t => filter (has_tag t) (children e)
  | descendant t => filter (has_tag t) (flat_map iter (children e))
  end.

Fixpoint iterfind (p : list step) (ctx : list element) : list element :=
  match p with
  | [] => ctx
  | s :: p' => iterfind p' (flat_map (select s) ctx)
  end.

(** [e.findall(path)] and [e.find(path)] *)
Definition findall (e : element) (p : list step) : list element :=
  iterfind p [e].

Definition find (e : element) (p : list step) : option element :=
  hd_error (findall e p).

(** Method and attribute access on a value that may be [None]. *)
Definition find_on (obj : option element) (p : list step) : result (option element) :=
  match obj with
  | Some e => Ok (find e p)
  | None => Raise (AttributeError "'NoneType' object has no attribute 'find'")
  end.

Definition text_of (obj : option element) : result (option string) :=
  match obj with
  | Some e => Ok (text e)
  | None => Raise (AttributeError "'NoneType' object has no attribute 'text'")
  end.

(** What [ET.parse(path)] does with the file at a path: it returns a tree;
    it raises [ParseError] on malformed XML; it fails with an operating
    system error when the path cannot be read as a file; or it raises an
    exception of another class, one that is not [ParseError], such as the
    [ValueError] and the [LookupError] of a declared encoding that the
    parser cannot decode. *)
Inductive parse_outcome : Type :=
| Parsed (root : element)
| Malformed (msg : string)
| Unreadable (msg : string)
| Fails (cls msg : string).

End ET.
Import ET.

(** ** The record extractor *)

(** [element.find(tag)] reads [tag] as an ElementPath expression, which
    may select a child, a descendant or the element itself, or be refused
    with an exception.  [extract_text] takes that reading of expressions
    as [find_expr]. *)
Definition extract_text
  (find_expr : element -> string -> result (option element))
  (element : option element) (tag : string) : result (option string) :=
  try_except_AttributeError
    (found <- match element with
              | Some e => find_expr e tag
              | None =>
                  Raise (AttributeError
                           "'NoneType' object has no attribute 'find'")
              end ;;
     text_of found)
    (Ok None).

Definition extract_date (pub_date : option element) : result (option string) :=
  try_except_AttributeError
    (year_el <- find_on pub_date [child "Year"] ;;
     year <- text_of year_el ;;
     month_el <- find_on pub_date [child "Month"] ;;
     month <- text_of month_el ;;
     Ok (Some (format_value year ++ "-" ++ format_value month)))
    (Ok None).

Definition is_not_None {A} (v : option A) : bool :=
  match v with
  | Some _ => true
  | None => false
  end.

(** [x if xs else None] around a join: an empty list is falsy. *)
Definition join_or_None (items : list (option string)) : result (option string) :=
  match items with
  | [] => Ok None
  | _ => s <- join "; " items ;; Ok (Some s)
  end.

Definition parse_mesh_headings (mesh_list : option element)
  : result (option string) :=
  match mesh_list with
  | None => Ok None
  | Some ml =>
      let headings :=
        flat_map (fun mh =>
                    match find mh [child "DescriptorName"] with
                    | Some descriptor => [text descriptor]
                    | None => []
                    end)
                 (findall ml [child "MeshHeading"]) in
      join_or_None headings
  end.

Definition parse_keywords (keyword_list : option element)
  : result (option string) :=
  match keyword_list with
  | None => Ok None
  | Some kl =>
      let keywords :=
        map text (filter (fun kw => is_not_None (text kw))
                         (findall kl [child "Keyword"])) in
      join_or_None keywords
  end.

(** A record is the dictionary literal of [parse_xml], with its five keys
    in the order the literal gives them. *)
Record record : Type := {
  Date : option string;
  Title : option string;
  Abstract : option string;
  MeshHeading : option string;
  Keywords : option string
}.

Definition items (r : record) : list (string * option string) :=
  [("Date", Date r); ("Title", Title r); ("Abstract", Abstract r);
   ("MeshHeading", MeshHeading r); ("Keywords", Keywords r)].

(** The body of the loop over the articles, up to the dictionary. *)
Definition record_of_article (article : element) : result record :=
  let date_element := find article [descendant "PubDate"] in
  let title_element := find article [descendant "ArticleTitle"] in
  let abstract_element :=
    find article [descendant "Abstract"; child "AbstractText"] in
  let mesh_list_element := find article [descendant "MeshHeadingList"] in
  let keyword_list_element := find article [descendant "KeywordList"] in
  date <- extract_date date_element ;;
  let title := match title_element with Some e => text e | None => None end in
  let abstract := match abstract_element with Some e => text e | None => None end in
  mesh_headings <- parse_mesh_headings mesh_list_element ;;
  keywords <- parse_keywords keyword_list_element ;;
  Ok {| Date := date; Title := title; Abstract := abstract;
        MeshHeading := mesh_headings; Keywords := keywords |}.

(** [for article in ...: ... records.append({...})] *)
Fixpoint articles_loop (articles : list element) (records : list record)
  : result (list record) :=
  match articles with
  | [] => Ok records
  | article :: rest =>
      r <- record_of_article article ;;
      articles_loop rest (records ++ [r])%list
  end.

(** ** Files and the console

    The program touches three kinds of files: the XML inputs, which it only
    reads; the output table, written through pandas; and the error log, a
    text file.  The inputs are a function from paths to what [ET.parse]
    does with them.  The files written are kept per path, tables as rows
    and text files as their content; a path is taken to name at most one
    kind of file, and the files written are not among the inputs.  Writing
    to the output table and to the error log is taken to succeed. *)

Inductive csv_line : Type :=
| Header (columns : list string)
| Row (cells : list string).

Record world : Type := {
  stdout : list string;
  tables : string -> option (list csv_line);
  texts : string -> option string
}.

Definition update {A} (m : string -> option A) (path : string) (v : A)
  : string -> option A :=
  fun p => if String.eqb p path then Some v else m p.

Definition print (line : string) (w : world) : world :=
  {| stdout := (stdout w ++ [line])%list; tables := tables w; texts := texts w |}.

Definition set_table (path : string) (lines : list csv_line) (w : world) : world :=
  {| stdout := stdout w; tables := update (tables w) path lines; texts := texts w |}.

Definition set_text (path : string) (content : string) (w : world) : world :=
  {| stdout := stdout w; tables := tables w; texts := update (texts w) path content |}.

(** [open(path, 'w')] creates the file or empties it; [f.write(s)] adds to
    its end. *)
Definition open_w (path : string) (w : world) : world := set_text path EmptyString w.

Definition write (path : string) (s : string) (w : world) : world :=
  match texts w path with
  | Some content => set_text path (content ++ s) w
  | None => w
  end.

Definition parse_xml (fs : string -> parse_outcome) (file_path : string) (w : world)
  : world * result (list record) :=
  match fs file_path with
  | Malformed e =>
      (print ("Error parsing " ++ file_path ++ ": " ++ e) w, Ok [])
  | Unreadable e => (w, Raise (OSError e))
  | Fails cls e => (w, Raise (OtherException cls e))
  | Parsed root =>
      (w, articles_loop (findall root [child "PubmedArticle"]) [])
  end.

(** ** The incremental writer *)

(** [pd.DataFrame(records)]: the columns are the keys of the dictionaries
    in the order in which they first occur; a key that a dictionary lacks
    gives a missing value. *)
Record DataFrame : Type := {
  columns : list string;
  values : list (list (option string))
}.

Definition add_keys (cols keys : list string) : list string :=
  fold_left (fun acc k => if existsb (String.eqb k) acc then acc else (acc ++ [k])%list)
            keys cols.

Definition get (k : string) (d : list (string * option string)) : option string :=
  match List.find (fun kv => String.eqb (fst kv) k) d with
  | Some kv => snd kv
  | None => None
  end.

Definition DataFrame_of (records : list record) : DataFrame :=
  let cols := fold_left (fun acc r => add_keys acc (map fst (items r))) records [] in
  {| columns := cols;
     values := map (fun r => map (fun c => get c (items r)) cols) records |}.

(** [df.to_csv(..., index=False)]: a missing value is written as an empty
    cell. *)
Definition cell (v : option string) : string :=
  match v with
  | Some s => s
  | None => EmptyString
  end.

Definition to_csv (df : DataFrame) (header : bool) : list csv_line :=
  ((if header then [Header (columns df)] else [])
   ++ map (fun r => Row (map cell r)) (values df))%list.

Definition save_records_to_csv (records : list record) (output_file : string)
  (w : world) : world :=
  let df := DataFrame_of records in
  let w :=
    match tables w output_file with
    | None => set_table output_file (to_csv df true) w
    | Some old => set_table output_file (old ++ to_csv df false)%list w
    end in
  print ("Data successfully saved to " ++ output_file) w.

(** ** The directory walker and the error log *)

(** Truth value of the start number: [None] and [0] are false. *)
Definition truthy (start_number : option Z) : bool :=
  match start_number with
  | None => false
  | Some n => negb (n =? 0)%Z
  end.

(** [f'pubmed24n{start_number:04d}']; [None] does not take the format. *)
Definition marker_prefix (start_number : option Z) : result string :=
  match start_number with
  | Some n => Ok ("pubmed24n" ++ format_04d n)
  | None =>
      Raise (TypeError "unsupported format string passed to NoneType.__format__")
  end.

Section Walker.

Variable fs : string -> parse_outcome.
Variables directory_path output_csv_file : string.
Variable start_number : option Z.

(** The statements under [if start_processing:], for one file. *)
Definition process_file (st : world * list string) (filename : string)
  : world * list string :=
  let '(w, error_log) := st in
  let file_path := os_path_join directory_path filename in
  let w := print ("Processing file: " ++ file_path) w in
  let '(w, r) := parse_xml fs file_path w in
  match r with
  | Ok [] => (w, error_log)
  | Ok records => (save_records_to_csv records output_csv_file w, error_log)
  | Raise e =>
      let error_message :=
        "Error processing " ++ file_path ++ ": " ++ str_of_exn e in
      (print error_message w, (error_log ++ [error_message])%list)
  end.

(** The loop over the sorted directory entries.  An exception outside the
    [try] ends the run where it stands. *)
Fixpoint walk (names : list string) (start_processing : bool)
  (st : world * list string) : world * result (list string) :=
  match names with
  | [] => (fst st, Ok (snd st))
  | filename :: rest =>
      if endswith filename ".xml" then
        let test :=
          if negb start_processing
          then p <- marker_prefix start_number ;; Ok (startswith filename p)
          else Ok false in
        match test with
        | Raise e => (fst st, Raise e)
        | Ok hit =>
            let start_processing := if hit then true else start_processing in
            walk rest start_processing
                 (if start_processing then process_file st filename else st)
        end
      else walk rest start_processing st
  end.

Definition error_log_file : string := os_path_join directory_path "error_log.txt".

(** The statements after the loop. *)
Definition flush_errors (st : world * list string) : world :=
  let '(w, error_log) := st in
  match error_log with
  | [] => w
  | _ =>
      let w := open_w error_log_file w in
      let w := fold_left (fun w error => write error_log_file (error ++ newline) w)
                         error_log w in
      print ("Error log saved to " ++ error_log_file) w
  end.

(** [listdir] is [os.listdir(directory_path)].  The list [all_records] of
    the source is never read and is left out. *)
Definition process_directory (listdir : list string) (w : world)
  : world * result unit :=
  let error_log := [] in
  let start_processing := if truthy start_number then false else true in
  let '(w, r) := walk (sorted listdir) start_processing (w, error_log) in
  match r with
  | Raise e => (w, Raise e)
  | Ok error_log => (flush_errors (w, error_log), Ok tt)
  end.

End Walker.

(** * The vocabulary of the statements *)

(** ** Fields *)

(** The texts of the keyword entries that have one, in document order. *)
Definition keyword_texts (keyword_list : element) : list string :=
  flat_map (fun kw => match text kw with Some t => [t] | None => [] end)
           (filter (has_tag "Keyword") (children keyword_list)).

(** The descriptor texts that [parse_mesh_headings] collects: one per
    heading that has a descriptor, its text or [None]. *)
Definition descriptor_texts (mesh_list : element) : list (option string) :=
  flat_map (fun mh => match find mh [child "DescriptorName"] with
                      | Some descriptor => [text descriptor]
                      | None => []
                      end)
           (findall mesh_list [child "MeshHeading"]).

(** The descriptor names of the heading list of an article all have text. *)
Definition descriptors_have_text (article : element) : Prop :=
  match find article [descendant "MeshHeadingList"] with
  | Some mesh_list => ~ In None (descriptor_texts mesh_list)
  | None => True
  end.

(** ** Rows *)

Definition column_names : list string :=
  ["Date"; "Title"; "Abstract"; "MeshHeading"; "Keywords"].

(** The data row of a record. *)
Definition row_of (r : record) : csv_line :=
  Row [cell (Date r); cell (Title r); cell (Abstract r);
       cell (MeshHeading r); cell (Keywords r)].

(** Calls of the writer one after the other, as the walker makes them. *)
Definition save_all (batches : list (list record)) (output_file : string)
  (w : world) : world :=
  fold_left (fun w records => save_records_to_csv records output_file w) batches w.

Fixpoint count_headers (lines : list csv_line) : nat :=
  match lines with
  | [] => 0
  | Header _ :: rest => S (count_headers rest)
  | Row _ :: rest => count_headers rest
  end.

(** ** Runs *)

Definition string_le (a b : string) : Prop := (a <=? b)%string = true.

Definition is_xml (filename : string) : bool := endswith filename ".xml".

(** The test of a filename against the prefix of a start number. *)
Definition has_marker (n : Z) (filename : string) : bool :=
  startswith filename ("pubmed24n" ++ format_04d n).

Section Runs.

Variable fs : string -> parse_outcome.
Variables directory_path output_csv_file : string.

(** The run over a list of files that are all processed. *)
Definition process_all (files : list string) (st : world * list string)
  : world * list string :=
  fold_left (process_file fs directory_path output_csv_file) files st.

Definition completed (st : world * list string) : world * result (list string) :=
  (fst st, Ok (snd st)).

Definition entry_for (filename entry : string) : Prop :=
  exists message,
    entry = "Error processing " ++ os_path_join directory_path filename
            ++ ": " ++ message.

End Runs.

(** ** Text files *)

(** The text of a file made of the given lines, each ended by a line
    break. *)
Fixpoint unlines (lines : list string) : string :=
  match lines with
  | [] => EmptyString
  | l :: rest => l ++ newline ++ unlines rest
  end.

(** The lines of a text, as reading the file line by line gives them:
    [line] holds the characters of the current line read so far. *)
Fixpoint split_lines_from (line : string) (s : string) : list string :=
  match s with
  | EmptyString => if String.eqb line EmptyString then [] else [line]
  | String c s' =>
      if Ascii.eqb c (ascii_of_nat 10)
      then line :: split_lines_from EmptyString s'
      else split_lines_from (line ++ String c EmptyString) s'
  end.

Definition split_lines (s : string) : list string := split_lines_from EmptyString s.

Fixpoint no_line_break (s : string) : bool :=
  match s with
  | EmptyString => true
  | String c s' => negb (Ascii.eqb c (ascii_of_nat 10)) && no_line_break s'
  end.

(** ** Sample documents and directories *)

Definition empty_descriptor_list : element :=
  Element "MeshHeadingList" None
    [Element "MeshHeading" None [Element "DescriptorName" None []]].

Definition article_with_empty_descriptor : element :=
  Element "PubmedArticle" None
    [Element "MedlineCitation" None
       [Element "Article" None [Element "ArticleTitle" (Some "Insulin") []];
        empty_descriptor_list]].

Definition plain_article : element :=
  Element "PubmedArticle" None
    [Element "MedlineCitation" None
       [Element "Article" None [Element "ArticleTitle" (Some "Aspirin") []]]].

Definition two_article_document : element :=
  Element "PubmedArticleSet" None [plain_article; article_with_empty_descriptor].

Definition date_without_year_text : element :=
  Element "PubDate" None [Element "Year" None []; Element "Month" (Some "Jan") []].

Definition empty_world : world :=
  {| stdout := []; tables := fun _ => None; texts := fun _ => None |}.

Definition three_article_document : element :=
  Element "PubmedArticleSet" None [plain_article; plain_article; plain_article].

(** A directory in which the first numbered file is a document of three
    articles and every other file is malformed. *)
Definition example_fs (path : string) : parse_outcome :=
  if String.eqb path "data/pubmed24n0001.xml"
  then Parsed three_article_document
  else Malformed "syntax error: line 1, column 0".

(** A directory in which every file is a document of three articles. *)
Definition uniform_fs (path : string) : parse_outcome :=
  Parsed three_article_document.

(** A directory with a file that cannot be read, a file with a descriptor
    name without text, and documents of three articles otherwise. *)
Definition faulty_fs (path : string) : parse_outcome :=
  if String.eqb path "data/a.xml" then Unreadable "[Errno 13] Permission denied"
  else if String.eqb path "data/b.xml" then Parsed two_article_document
  else Parsed three_article_document.

Definition first_record : record :=
  {| Date := Some "2024-Jan"; Title := Some "Aspirin"; Abstract := None;
     MeshHeading := Some "Diabetes Mellitus; Insulin";
     Keywords := Some "gene therapy" |}.

Definition second_record : record :=
  {| Date := None; Title := Some "Insulin, revisited"; Abstract := Some "Short.";
     MeshHeading := None; Keywords := None |}.

(** ** What a run does, file by file *)

(** The files from the first one with the prefix of the start number on. *)
Fixpoint from_marker (n : Z) (files : list string) : list string :=
  match files with
  | [] => []
  | f :: rest => if has_marker n f then f :: rest else from_marker n rest
  end.

(** The files a run processes, out of the sorted directory entries. *)
Definition files_processed (start_number : option Z) (names : list string)
  : list string :=
  match start_number with
  | Some n =>
      if (n =? 0)%Z then filter is_xml names
      else from_marker n (filter is_xml names)
  | None => filter is_xml names
  end.

Section FileOutcome.

Variable fs : string -> parse_outcome.
Variable directory_path : string.

(** What [parse_xml] returns or raises for a file of the directory. *)
Definition parse_result (filename : string) : result (list record) :=
  snd (parse_xml fs (os_path_join directory_path filename) empty_world).

(** The data rows a file gives. *)
Definition file_rows (filename : string) : list csv_line :=
  match parse_result filename with
  | Ok records => map row_of records
  | Raise _ => []
  end.

(** The entry a file leaves in the error log, if any. *)
Definition file_entries (filename : string) : list string :=
  match parse_result filename with
  | Ok _ => []
  | Raise e =>
      ["Error processing " ++ os_path_join directory_path filename ++ ": "
       ++ str_of_exn e]
  end.

End FileOutcome.

(** A table after data rows have been saved to it file by file: nothing is
    created for no rows, and the header comes with the first rows only. *)
Definition table_after (before : option (list csv_line)) (rows : list csv_line)
  : option (list csv_line) :=
  match before, rows with
  | Some old, _ => Some (old ++ rows)%list
  | None, [] => None
  | None, _ => Some (Header column_names :: rows)
  end.

(** A directory whose files declare an encoding that the parser cannot
    decode. *)
Definition undecodable_fs (path : string) : parse_outcome :=
  Fails "ValueError" "multi-byte encodings are not supported".

(** A document with no article element. *)
Definition empty_document : element := Element "PubmedArticleSet" None [].

Definition heading_list_of_two : element :=
  Element "MeshHeadingList" None
    [Element "MeshHeading" None
       [Element "DescriptorName" (Some "Diabetes Mellitus") []];
     Element "MeshHeading" None [Element "QualifierName" (Some "therapy") []];
     Element "MeshHeading" None [Element "DescriptorName" (Some "Insulin") []]].

(** A directory whose files are all documents with no article element. *)
Definition empty_fs (path : string) : parse_outcome := Parsed empty_document.

(** * Properties *)

(** The last step on a run: both sides are the pair of a world and a
    result. *)
Ltac finish_run :=
  unfold completed; cbn [fst snd];
  try match goal with
      | |- context [process_all ?fs ?d ?o ?files ?st] =>
          now destruct (process_all fs d o files st)
      end.

(** ** Joining strings *)

Lemma all_str_Some (ss : list string) (i : nat) :
  all_str i (map Some ss) = Ok ss.
Proof.
  revert i; induction ss as [|s ss IH]; intro i; simpl.
  - reflexivity.
  - now rewrite IH.
Qed.

Lemma join_Some (sep : string) (ss : list string) :
  join sep (map Some ss) = Ok (String.concat sep ss).
Proof. unfold join. now rewrite all_str_Some. Qed.

Lemma join_or_None_Some (ss : list string) :
  join_or_None (map Some ss)
  = Ok (match ss with [] => None | _ => Some (String.concat "; " ss) end).
Proof.
  destruct ss as [|s ss]; [reflexivity|].
  unfold join_or_None.
  change (Some s :: map Some ss) with (map Some (s :: ss)).
  now rewrite join_Some.
Qed.

(** A list with [None] in it cannot be joined. *)
Lemma all_str_None (items : list (option string)) (i : nat) :
  In None items -> exists msg, all_str i items = Raise (TypeError msg).
Proof.
  revert i; induction items as [|[s|] items IH]; intros i Hin; simpl.
  - contradiction.
  - destruct Hin as [Heq|Hin]; [discriminate|].
    destruct (IH (S i) Hin) as [msg ->]. now exists msg.
  - eauto.
Qed.

(** ** ElementTree lookups *)

Lemma findall_child (e : element) (t : string) :
  findall e [child t] = filter (has_tag t) (children e).
Proof. unfold findall; simpl. apply app_nil_r. Qed.

Lemma find_child (e : element) (t : string) :
  find e [child t] = hd_error (filter (has_tag t) (children e)).
Proof. unfold find. now rewrite findall_child. Qed.

(** ** Fields that cannot fail *)

Lemma extract_date_value (pub_date : element) :
  extract_date (Some pub_date)
  = Ok (match find pub_date [child "Year"], find pub_date [child "Month"] with
        | Some y, Some m => Some (format_value (text y) ++ "-" ++ format_value (text m))
        | _, _ => None
        end).
Proof.
  unfold extract_date; simpl.
  destruct (find pub_date [child "Year"]) as [y|]; simpl; [|reflexivity].
  destruct (find pub_date [child "Month"]) as [m|]; reflexivity.
Qed.

Lemma extract_date_total (pub_date : option element) :
  exists v, extract_date pub_date = Ok v.
Proof.
  destruct pub_date as [pd|].
  - rewrite extract_date_value. eauto.
  - now exists None.
Qed.


Lemma texts_with_text (l : list element) :
  map text (filter (fun kw => is_not_None (text kw)) l)
  = map Some (flat_map (fun kw => match text kw with Some t => [t] | None => [] end) l).
Proof.
  induction l as [|[t [x|] cs] l IH]; simpl; [reflexivity| |exact IH].
  now rewrite IH.
Qed.

Lemma parse_keywords_value (keyword_list : element) :
  parse_keywords (Some keyword_list)
  = Ok (match keyword_texts keyword_list with
        | [] => None
        | ts => Some (String.concat "; " ts)
        end).
Proof.
  unfold parse_keywords, keyword_texts.
  rewrite findall_child, texts_with_text, join_or_None_Some.
  now destruct (flat_map _ _).
Qed.

Lemma parse_keywords_total (keyword_list : option element) :
  exists v, parse_keywords keyword_list = Ok v.
Proof.
  destruct keyword_list as [kl|].
  - rewrite parse_keywords_value. eauto.
  - now exists None.
Qed.

(** ** The heading list *)


Lemma parse_mesh_headings_ok (mesh_list : element) (names : list string) :
  descriptor_texts mesh_list = map Some names ->
  parse_mesh_headings (Some mesh_list)
  = Ok (match names with [] => None | _ => Some (String.concat "; " names) end).
Proof.
  intro H. unfold parse_mesh_headings. fold (descriptor_texts mesh_list).
  rewrite H. apply join_or_None_Some.
Qed.

Lemma parse_mesh_headings_raises (mesh_list : element) :
  In None (descriptor_texts mesh_list) ->
  exists msg, parse_mesh_headings (Some mesh_list) = Raise (TypeError msg).
Proof.
  intro H. unfold parse_mesh_headings. fold (descriptor_texts mesh_list).
  destruct (descriptor_texts mesh_list) as [|d ds] eqn:E; [contradiction|].
  unfold join_or_None, join.
  destruct (all_str_None (d :: ds) 0 H) as [msg ->]. now exists msg.
Qed.

(** ** One record per article *)

(** Only the heading list can stop a record from being built. *)
Lemma record_of_article_raise (article : element) (e : exn) :
  record_of_article article = Raise e ->
  parse_mesh_headings (find article [descendant "MeshHeadingList"]) = Raise e.
Proof.
  unfold record_of_article.
  destruct (extract_date_total (find article [descendant "PubDate"])) as [d ->].
  destruct (parse_keywords_total (find article [descendant "KeywordList"])) as [k ->].
  simpl. destruct (parse_mesh_headings _); simpl; congruence.
Qed.

Lemma articles_loop_app (articles : list element) (records done : list record) :
  articles_loop articles records = Ok done ->
  exists new, done = (records ++ new)%list
              /\ Forall2 (fun a r => record_of_article a = Ok r) articles new.
Proof.
  revert records; induction articles as [|a articles IH]; intros records H; simpl in H.
  - exists []. split; [|constructor]. rewrite app_nil_r. congruence.
  - destruct (record_of_article a) as [r|] eqn:Ha; simpl in H; [|discriminate].
    destruct (IH _ H) as (new & -> & Hall).
    exists (r :: new). split.
    + now rewrite <- app_assoc.
    + now constructor.
Qed.

Lemma articles_loop_ok (articles : list element) (records new : list record) :
  Forall2 (fun a r => record_of_article a = Ok r) articles new ->
  articles_loop articles records = Ok (records ++ new)%list.
Proof.
  intro H; revert records; induction H as [|a r articles new Ha _ IH];
    intro records; simpl.
  - now rewrite app_nil_r.
  - rewrite Ha; simpl. rewrite IH. now rewrite <- app_assoc.
Qed.

Lemma articles_loop_raise (articles : list element) (records : list record)
  (a : element) (e : exn) (before after : list element) (new : list record) :
  articles = (before ++ a :: after)%list ->
  Forall2 (fun a r => record_of_article a = Ok r) before new ->
  record_of_article a = Raise e ->
  articles_loop articles records = Raise e.
Proof.
  intros -> H; revert records; induction H as [|b r before new Hb _ IH];
    intros records Ha; simpl.
  - now rewrite Ha.
  - rewrite Hb; simpl. now apply IH.
Qed.

Lemma parse_xml_parsed (fs : string -> parse_outcome) (path : string) (w : world)
  (root : element) :
  fs path = Parsed root ->
  parse_xml fs path w
  = (w, articles_loop (findall root [child "PubmedArticle"]) []).
Proof. intro H. unfold parse_xml. now rewrite H. Qed.

(** When a parsed document gives records at all, it gives one per article
    element, in document order. *)
Lemma parse_xml_records (fs : string -> parse_outcome) (path : string) (w : world)
  (root : element) (records : list record) :
  fs path = Parsed root ->
  snd (parse_xml fs path w) = Ok records ->
  Forall2 (fun a r => record_of_article a = Ok r)
          (findall root [child "PubmedArticle"]) records
  /\ List.length records = List.length (findall root [child "PubmedArticle"]).
Proof.
  intros Hfs H. rewrite (parse_xml_parsed _ _ _ _ Hfs) in H; simpl in H.
  destruct (articles_loop_app _ _ _ H) as (new & -> & Hall). simpl.
  split; [exact Hall|]. symmetry. eapply Forall2_length; eauto.
Qed.


Lemma all_Some (items : list (option string)) :
  ~ In None items -> exists ss, items = map Some ss.
Proof.
  induction items as [|[s|] items IH]; intro H.
  - now exists [].
  - destruct IH as [ss ->]; [intro; apply H; now right|]. now exists (s :: ss).
  - exfalso. apply H. now left.
Qed.

Lemma record_of_article_ok (article : element) :
  descriptors_have_text article -> exists r, record_of_article article = Ok r.
Proof.
  unfold descriptors_have_text, record_of_article. intro H.
  destruct (extract_date_total (find article [descendant "PubDate"])) as [d ->].
  destruct (parse_keywords_total (find article [descendant "KeywordList"])) as [k ->].
  destruct (find article [descendant "MeshHeadingList"]) as [ml|].
  - destruct (all_Some _ H) as [ss Hss].
    rewrite (parse_mesh_headings_ok _ _ Hss). simpl. eauto.
  - simpl. eauto.
Qed.

Lemma parse_xml_count (fs : string -> parse_outcome) (path : string) (w : world)
  (root : element) :
  fs path = Parsed root ->
  Forall descriptors_have_text (findall root [child "PubmedArticle"]) ->
  exists records,
    parse_xml fs path w = (w, Ok records)
    /\ List.length records = List.length (findall root [child "PubmedArticle"]).
Proof.
  intros Hfs Hall. rewrite (parse_xml_parsed _ _ _ _ Hfs).
  assert (exists new, Forall2 (fun a r => record_of_article a = Ok r)
                              (findall root [child "PubmedArticle"]) new)
    as [new Hnew].
  { induction Hall as [|a l Ha _ [new IH]].
    - exists []. constructor.
    - destruct (record_of_article_ok _ Ha) as [r Hr].
      exists (r :: new). now constructor. }
  exists new. rewrite (articles_loop_ok _ [] _ Hnew). simpl. split; [reflexivity|].
  symmetry. eapply Forall2_length; eauto.
Qed.

(** ** The claims on the record extractor *)


(** C2.  The claim is that no failure in one field stops the record of an
    article.  A heading whose descriptor name has no text does: joining the
    collected names raises [TypeError], in [parse_mesh_headings] and so in
    the construction of the record, which is not produced. *)
Theorem empty_descriptor_aborts_record :
  parse_mesh_headings (Some empty_descriptor_list)
  = Raise (TypeError "sequence item 0: expected str instance, NoneType found")
  /\ record_of_article article_with_empty_descriptor
     = Raise (TypeError "sequence item 0: expected str instance, NoneType found").
Proof. split; reflexivity. Qed.

(** C3.  The claim is that the date is absent unless both the year and the
    month have text.  For a publication date whose year element is there
    but holds no text, [extract_date] returns the string "None-Jan". *)
Theorem extract_date_year_without_text :
  extract_date (Some date_without_year_text) = Ok (Some "None-Jan").
Proof. reflexivity. Qed.

(** C4.  The claim is one record per article element of a well-formed
    document.  This document has two article elements, the second with a
    descriptor name without text: [parse_xml] raises and no record at all
    comes out of it, the one of the first article included. *)
Theorem parse_xml_loses_all_records :
  forall (path : string) (w : world),
    List.length (findall two_article_document [child "PubmedArticle"]) = 2
    /\ record_of_article plain_article
       = Ok {| Date := None; Title := Some "Aspirin"; Abstract := None;
               MeshHeading := None; Keywords := None |}
    /\ parse_xml (fun _ => Parsed two_article_document) path w
       = (w, Raise (TypeError
                      "sequence item 0: expected str instance, NoneType found")).
Proof. intros path w. repeat split. Qed.

(** C6.  The keywords field is the texts of the keyword entries that have
    one, in document order, joined with "; "; it is absent when there is no
    keyword list or when no entry has text.  An entry is without text when
    its [text] is [None], which is how ElementTree gives an element that
    holds no character data. *)
Theorem parse_keywords_joins_texts :
  parse_keywords None = Ok None
  /\ (forall keyword_list : element,
        parse_keywords (Some keyword_list)
        = Ok (match keyword_texts keyword_list with
              | [] => None
              | ts => Some (String.concat "; " ts)
              end))
  /\ parse_keywords
       (Some (Element "KeywordList" None
                [Element "Keyword" None [];
                 Element "Keyword" (Some "gene therapy") []]))
     = Ok (Some "gene therapy").
Proof.
  split; [reflexivity|]. split; [exact parse_keywords_value|reflexivity].
Qed.

(** ** The incremental writer *)


Lemma update_same {A} (m : string -> option A) (path : string) (v : A) :
  update m path v path = Some v.
Proof. unfold update. now rewrite String.eqb_refl. Qed.

Lemma update_other {A} (m : string -> option A) (path p : string) (v : A) :
  p <> path -> update m path v p = m p.
Proof.
  intro H. unfold update. apply String.eqb_neq in H. now rewrite H.
Qed.

Lemma columns_stay (records : list record) :
  fold_left (fun acc r => add_keys acc (map fst (items r))) records column_names
  = column_names.
Proof. induction records as [|r records IH]; simpl; [reflexivity|exact IH]. Qed.

Lemma DataFrame_of_records (records : list record) :
  records <> [] ->
  DataFrame_of records
  = {| columns := column_names;
       values := map (fun r => [Date r; Title r; Abstract r; MeshHeading r; Keywords r])
                     records |}.
Proof.
  intro H. unfold DataFrame_of.
  assert (fold_left (fun acc r => add_keys acc (map fst (items r))) records []
          = column_names) as ->.
  { destruct records as [|r records]; [contradiction|]. apply columns_stay. }
  reflexivity.
Qed.

Lemma to_csv_records (records : list record) (header : bool) :
  records <> [] ->
  to_csv (DataFrame_of records) header
  = ((if header then [Header column_names] else []) ++ map row_of records)%list.
Proof.
  intro H. rewrite (DataFrame_of_records _ H). unfold to_csv; simpl.
  now rewrite map_map.
Qed.

Lemma save_absent (records : list record) (output_file : string) (w : world) :
  records <> [] ->
  tables w output_file = None ->
  tables (save_records_to_csv records output_file w) output_file
  = Some (Header column_names :: map row_of records).
Proof.
  intros Hne Hw. unfold save_records_to_csv. rewrite Hw; simpl.
  rewrite update_same. now rewrite (to_csv_records _ true Hne).
Qed.

Lemma save_existing (records : list record) (output_file : string) (w : world)
  (old : list csv_line) :
  records <> [] ->
  tables w output_file = Some old ->
  tables (save_records_to_csv records output_file w) output_file
  = Some (old ++ map row_of records)%list.
Proof.
  intros Hne Hw. unfold save_records_to_csv. rewrite Hw; simpl.
  rewrite update_same. now rewrite (to_csv_records _ false Hne).
Qed.

Lemma save_frame (records : list record) (output_file : string) (w : world) :
  texts (save_records_to_csv records output_file w) = texts w
  /\ forall p, p <> output_file ->
               tables (save_records_to_csv records output_file w) p = tables w p.
Proof.
  unfold save_records_to_csv.
  destruct (tables w output_file); simpl; (split; [reflexivity|]);
    intros p Hp; now apply update_other.
Qed.


Lemma save_all_existing (batches : list (list record)) (output_file : string)
  (w : world) (old : list csv_line) :
  Forall (fun records => records <> []) batches ->
  tables w output_file = Some old ->
  tables (save_all batches output_file w) output_file
  = Some (old ++ map row_of (List.concat batches))%list.
Proof.
  intro H; revert w old; induction H as [|b batches Hb _ IH]; intros w old Hw; simpl.
  - now rewrite app_nil_r.
  - rewrite (IH _ _ (save_existing _ _ _ _ Hb Hw)).
    now rewrite map_app, app_assoc.
Qed.


Lemma count_headers_app (a b : list csv_line) :
  count_headers (a ++ b) = count_headers a + count_headers b.
Proof.
  induction a as [|[cols|cells] a IH]; simpl; [reflexivity| |exact IH].
  now rewrite IH.
Qed.

Lemma count_headers_rows (records : list record) :
  count_headers (map row_of records) = 0.
Proof. induction records; simpl; auto. Qed.

(** C7.  A call of the writer with at least one record creates an absent
    destination as the header row, with the columns Date, Title, Abstract,
    MeshHeading, Keywords, followed by one data row per record; on an
    existing destination it adds the data rows at the end and no header.
    Any number of further calls therefore leaves the number of header rows
    as it was. *)
Theorem save_records_to_csv_header_once
  (records : list record) (output_file : string) (w : world) :
  records <> [] ->
  (tables w output_file = None ->
   tables (save_records_to_csv records output_file w) output_file
   = Some (Header ["Date"; "Title"; "Abstract"; "MeshHeading"; "Keywords"]
             :: map row_of records))
  /\ (forall old : list csv_line,
        tables w output_file = Some old ->
        tables (save_records_to_csv records output_file w) output_file
        = Some (old ++ map row_of records)%list)
  /\ (forall (old : list csv_line) (batches : list (list record)),
        tables w output_file = Some old ->
        Forall (fun b => b <> []) batches ->
        exists lines,
          tables (save_all (records :: batches) output_file w) output_file
          = Some lines
          /\ lines = (old ++ map row_of (List.concat (records :: batches)))%list
          /\ count_headers lines = count_headers old).
Proof.
  intro Hne. split; [|split].
  - now apply save_absent.
  - intros old Hw. now apply save_existing.
  - intros old batches Hw Hb. eexists. split; [|split; [reflexivity|]].
    + apply save_all_existing; [now constructor|exact Hw].
    + rewrite count_headers_app, count_headers_rows. lia.
Qed.

(** ** Sorting the directory entries *)

Lemma insert_sorted_perm (x : string) (l : list string) :
  Permutation (insert_sorted x l) (x :: l).
Proof.
  induction l as [|y l IH]; simpl; [reflexivity|].
  destruct (x <=? y)%string; [reflexivity|].
  rewrite IH. apply perm_swap.
Qed.

Lemma sorted_perm (l : list string) : Permutation (sorted l) l.
Proof.
  induction l as [|x l IH]; simpl; [constructor|].
  rewrite insert_sorted_perm. now constructor.
Qed.

Lemma sorted_In (x : string) (l : list string) : In x (sorted l) -> In x l.
Proof. apply Permutation_in, sorted_perm. Qed.


Lemma insert_sorted_Sorted (x : string) (l : list string) :
  Sorted string_le l -> Sorted string_le (insert_sorted x l).
Proof.
  induction 1 as [|y l Hl IH Hy]; simpl.
  - repeat constructor.
  - destruct (x <=? y)%string eqn:E.
    + constructor; [now constructor|now constructor].
    + constructor; [exact IH|].
      assert (string_le y x) as Hyx.
      { destruct (String.leb_total x y) as [H|H]; [congruence|exact H]. }
      destruct Hy as [|z l Hz]; simpl; [now constructor|].
      destruct (x <=? z)%string; now constructor.
Qed.

Lemma sorted_Sorted (l : list string) : Sorted string_le (sorted l).
Proof.
  induction l as [|x l IH]; simpl; [constructor|].
  now apply insert_sorted_Sorted.
Qed.

(** ** The directory walker *)


Section WalkerFacts.

Variable fs : string -> parse_outcome.
Variables directory_path output_csv_file : string.

Local Abbreviation process := (process_file fs directory_path output_csv_file).
Local Abbreviation walk_from := (walk fs directory_path output_csv_file).
Local Abbreviation process_all := (process_all fs directory_path output_csv_file).
Local Abbreviation entry_for := (entry_for directory_path).


Lemma walk_other (start_number : option Z) (x : string) (names : list string)
  (b : bool) (st : world * list string) :
  is_xml x = false ->
  walk_from start_number (x :: names) b st = walk_from start_number names b st.
Proof. unfold is_xml. intro H. cbn [walk]. now rewrite H. Qed.

Lemma walk_xml_started (start_number : option Z) (x : string)
  (names : list string) (st : world * list string) :
  is_xml x = true ->
  walk_from start_number (x :: names) true st
  = walk_from start_number names true (process st x).
Proof. unfold is_xml. intro H. cbn [walk]. now rewrite H. Qed.

Lemma walk_xml_waiting (n : Z) (x : string) (names : list string)
  (st : world * list string) :
  is_xml x = true ->
  walk_from (Some n) (x :: names) false st
  = if has_marker n x
    then walk_from (Some n) names true (process st x)
    else walk_from (Some n) names false st.
Proof.
  unfold is_xml, has_marker. intro H. cbn [walk]. rewrite H.
  cbn [negb marker_prefix bind].
  now destruct (startswith x ("pubmed24n" ++ format_04d n)).
Qed.

(** Once processing has started, every file with the extension is
    processed, whatever the start number. *)
Lemma walk_started (start_number : option Z) (names : list string)
  (st : world * list string) :
  walk_from start_number names true st
  = completed (process_all (filter is_xml names) st).
Proof.
  revert st; induction names as [|x names IH]; intro st.
  - reflexivity.
  - cbn [filter]. destruct (is_xml x) eqn:E.
    + rewrite walk_xml_started by exact E. apply IH.
    + rewrite walk_other by exact E. apply IH.
Qed.

(** Before that, files are passed over until one has the prefix. *)
Lemma walk_skipping (n : Z) (names pre post : list string) (f : string)
  (st : world * list string) :
  filter is_xml names = (pre ++ f :: post)%list ->
  Forall (fun g => has_marker n g = false) pre ->
  has_marker n f = true ->
  walk_from (Some n) names false st = completed (process_all (f :: post) st).
Proof.
  revert pre; induction names as [|x names IH]; intros pre Hsplit Hpre Hf.
  - destruct pre; discriminate.
  - cbn [filter] in Hsplit. destruct (is_xml x) eqn:E.
    + rewrite walk_xml_waiting by exact E.
      destruct pre as [|g pre]; cbn [app] in Hsplit.
      * injection Hsplit as -> Hpost. rewrite Hf, walk_started, Hpost.
        reflexivity.
      * injection Hsplit as -> Hrest. inversion Hpre as [|? ? Hg Hpre']; subst.
        rewrite Hg. now apply IH with pre.
    + rewrite walk_other by exact E. now apply IH with pre.
Qed.

(** When no file has the prefix, nothing is processed. *)
Lemma walk_never_started (n : Z) (names : list string) (st : world * list string) :
  Forall (fun g => has_marker n g = false) (filter is_xml names) ->
  walk_from (Some n) names false st = completed st.
Proof.
  induction names as [|x names IH]; intro H; [reflexivity|].
  cbn [filter] in H. destruct (is_xml x) eqn:E.
  - inversion H as [|? ? Hx H']; subst.
    rewrite walk_xml_waiting by exact E. rewrite Hx. now apply IH.
  - rewrite walk_other by exact E. now apply IH.
Qed.

(** The loop as [process_directory] starts it always completes, having
    processed the files with the extension from some point on. *)
Lemma walk_completes (start_number : option Z) (names : list string)
  (st : world * list string) :
  exists skipped files,
    filter is_xml names = (skipped ++ files)%list
    /\ walk_from start_number names
                 (if truthy start_number then false else true) st
       = completed (process_all files st).
Proof.
  destruct (truthy start_number) eqn:Ht.
  - destruct start_number as [n|]; [|discriminate]. clear Ht.
    induction names as [|x names (skipped & files & Hsplit & IH)].
    + now exists [], [].
    + cbn [filter]. destruct (is_xml x) eqn:E.
      * rewrite walk_xml_waiting by exact E. destruct (has_marker n x).
        -- exists [], (x :: filter is_xml names). split; [reflexivity|].
           now rewrite walk_started.
        -- exists (x :: skipped), files. rewrite Hsplit. now split.
      * rewrite walk_other by exact E. exists skipped, files. now split.
  - exists [], (filter is_xml names). split; [reflexivity|].
    apply walk_started.
Qed.

(** *** What processing one file does *)

(** The outcome of parsing does not depend on the console or on the
    files written. *)
Lemma parse_xml_result (path : string) (w1 w2 : world) :
  snd (parse_xml fs path w1) = snd (parse_xml fs path w2).
Proof. unfold parse_xml. now destruct (fs path). Qed.

Lemma parse_xml_texts (path : string) (w : world) :
  texts (fst (parse_xml fs path w)) = texts w
  /\ tables (fst (parse_xml fs path w)) = tables w.
Proof. unfold parse_xml. now destruct (fs path). Qed.


Lemma process_file_effect (st : world * list string) (filename : string) :
  texts (fst (process st filename)) = texts (fst st)
  /\ (snd (process st filename) = snd st
      \/ exists entry, entry_for filename entry
                       /\ snd (process st filename) = (snd st ++ [entry])%list).
Proof.
  destruct st as [w error_log]. unfold process_file.
  destruct (parse_xml_texts (os_path_join directory_path filename)
              (print ("Processing file: " ++ os_path_join directory_path filename) w))
    as [Ht _].
  destruct (parse_xml fs _ _) as [w1 [[|r records]|e]]; cbn [fst snd] in *.
  - split; [exact Ht|now left].
  - split; [|now left]. rewrite (proj1 (save_frame _ _ _)). exact Ht.
  - split; [exact Ht|right]. eexists. split; [|reflexivity].
    now exists (str_of_exn e).
Qed.

Lemma process_all_effect (files : list string) (st : world * list string) :
  texts (fst (process_all files st)) = texts (fst st)
  /\ exists entries,
       snd (process_all files st) = (snd st ++ entries)%list
       /\ Forall (fun entry => exists filename,
                                 In filename files /\ entry_for filename entry)
                 entries.
Proof.
  revert st; induction files as [|f files IH]; intro st; simpl.
  - split; [reflexivity|]. exists []. split; [now rewrite app_nil_r|constructor].
  - destruct (IH (process st f)) as (Ht & entries & Hlog & Hall).
    destruct (process_file_effect st f) as (Ht1 & Hlog1).
    split; [unfold process_all in *; simpl; congruence|].
    assert (Forall (fun entry => exists filename,
                        (f = filename \/ In filename files)
                        /\ entry_for filename entry) entries) as Hall'.
    { eapply Forall_impl; [|exact Hall].
      intros entry (filename & Hin & He). exists filename. auto. }
    destruct Hlog1 as [Hsame|(entry & He & Hadd)].
    + exists entries. split; [|exact Hall'].
      unfold process_all in *; simpl. congruence.
    + exists (entry :: entries). split.
      * unfold process_all in *; simpl. rewrite Hlog, Hadd.
        now rewrite <- app_assoc.
      * constructor; [|exact Hall']. exists f. auto.
Qed.

End WalkerFacts.

(** ** The error log *)


Lemma append_assoc (a b c : string) : (a ++ b) ++ c = a ++ (b ++ c).
Proof. induction a as [|x a IH]; simpl; [reflexivity|now rewrite IH]. Qed.

Lemma append_empty (a : string) : a ++ EmptyString = a.
Proof. induction a as [|x a IH]; simpl; [reflexivity|now rewrite IH]. Qed.

Lemma split_lines_from_line (e line rest : string) :
  no_line_break e = true ->
  split_lines_from line (e ++ newline ++ rest)
  = (line ++ e) :: split_lines_from EmptyString rest.
Proof.
  revert line; induction e as [|c e IH]; intros line H; simpl in *.
  - now rewrite append_empty.
  - apply andb_prop in H as [Hc He].
    destruct (Ascii.eqb c (ascii_of_nat 10)); [discriminate|].
    rewrite (IH _ He), append_assoc. reflexivity.
Qed.

Lemma split_lines_unlines (lines : list string) :
  forallb no_line_break lines = true ->
  split_lines (unlines lines) = lines.
Proof.
  unfold split_lines. induction lines as [|l lines IH]; intro H.
  - reflexivity.
  - cbn [forallb unlines] in *. apply andb_prop in H as [Hl Hrest].
    rewrite (split_lines_from_line _ EmptyString _ Hl). cbn [append].
    now rewrite (IH Hrest).
Qed.

Section ErrorLogFacts.

Variable directory_path : string.

Local Abbreviation log_path := (error_log_file directory_path).

Lemma write_lines (error_log : list string) (w : world) (content : string) :
  texts w log_path = Some content ->
  let w' := fold_left (fun w error => write log_path (error ++ newline) w)
                      error_log w in
  texts w' log_path = Some (content ++ unlines error_log)
  /\ (forall p, p <> log_path -> texts w' p = texts w p)
  /\ tables w' = tables w
  /\ stdout w' = stdout w.
Proof.
  revert w content; induction error_log as [|e error_log IH];
    intros w content Hw; simpl.
  - rewrite append_empty. auto.
  - assert (texts (write log_path (e ++ newline) w) log_path
            = Some (content ++ e ++ newline)) as Hstep.
    { unfold write. rewrite Hw. simpl. apply update_same. }
    destruct (IH _ _ Hstep) as (Hc & Hother & Ht & Hs).
    rewrite Hc, Ht, Hs. repeat split.
    + now rewrite !append_assoc.
    + intros p Hp. rewrite (Hother p Hp). unfold write. rewrite Hw. simpl.
      now apply update_other.
    + unfold write. now rewrite Hw.
    + unfold write. now rewrite Hw.
Qed.

(** With no entry nothing is written; with entries the log file is
    opened afresh and holds their lines and nothing else. *)
Lemma flush_errors_none (w : world) :
  flush_errors directory_path (w, []) = w.
Proof. reflexivity. Qed.

Lemma flush_errors_some (w : world) (error_log : list string) :
  error_log <> [] ->
  let w' := flush_errors directory_path (w, error_log) in
  texts w' log_path = Some (unlines error_log)
  /\ (forall p, p <> log_path -> texts w' p = texts w p)
  /\ tables w' = tables w.
Proof.
  intro Hne. destruct error_log as [|e error_log]; [contradiction|].
  assert (texts (open_w log_path w) log_path = Some EmptyString) as Hopen
    by apply update_same.
  destruct (write_lines (e :: error_log) _ _ Hopen) as (Hc & Hother & Ht & _).
  cbv zeta in *. unfold flush_errors.
  cbn [texts tables print]. repeat split.
  - exact Hc.
  - intros p Hp. rewrite (Hother p Hp). unfold open_w. simpl.
    now apply update_other.
  - exact Ht.
Qed.

End ErrorLogFacts.

(** ** One file at a time *)

Section ProcessFileFacts.

Variable fs : string -> parse_outcome.
Variables directory_path output_csv_file : string.

Local Abbreviation process := (process_file fs directory_path output_csv_file).
Local Abbreviation path_of := (os_path_join directory_path).

(** A file that gives at least one record is a parsed one. *)
Lemma parse_xml_yields (path : string) (w : world) (records : list record) :
  records <> [] ->
  snd (parse_xml fs path w) = Ok records ->
  forall w0, parse_xml fs path w0 = (w0, Ok records).
Proof.
  unfold parse_xml. intros Hne H w0.
  destruct (fs path); simpl in H.
  - now rewrite H.
  - injection H as <-. contradiction.
  - discriminate.
  - discriminate.
Qed.

Lemma process_file_records (filename : string) (w : world)
  (error_log : list string) (records : list record) :
  records <> [] ->
  snd (parse_xml fs (path_of filename) w) = Ok records ->
  process (w, error_log) filename
  = (save_records_to_csv records output_csv_file
       (print ("Processing file: " ++ path_of filename) w),
     error_log).
Proof.
  intros Hne H. unfold process_file.
  rewrite (parse_xml_yields _ _ _ Hne H).
  destruct records; [contradiction|reflexivity].
Qed.

Lemma process_file_malformed (filename : string) (w : world)
  (error_log : list string) (message : string) :
  fs (path_of filename) = Malformed message ->
  process (w, error_log) filename
  = (print ("Error parsing " ++ path_of filename ++ ": " ++ message)
       (print ("Processing file: " ++ path_of filename) w),
     error_log).
Proof. intro H. unfold process_file, parse_xml. now rewrite H. Qed.

Lemma process_file_raise (filename : string) (w : world)
  (error_log : list string) (e : exn) :
  snd (parse_xml fs (path_of filename) w) = Raise e ->
  process (w, error_log) filename
  = (print ("Error processing " ++ path_of filename ++ ": " ++ str_of_exn e)
       (print ("Processing file: " ++ path_of filename) w),
     (error_log
        ++ [("Error processing " ++ path_of filename ++ ": "
             ++ str_of_exn e)%string])%list).
Proof.
  intro H. unfold process_file.
  rewrite (parse_xml_result fs _ w (print ("Processing file: " ++ path_of filename) w)) in H.
  destruct (parse_xml fs _ _) as [w1 r] eqn:E; simpl in H; subst r.
  assert (w1 = print ("Processing file: " ++ path_of filename) w) as ->.
  { unfold parse_xml in E. destruct (fs (path_of filename));
      [now injection E|discriminate|now injection E|now injection E]. }
  reflexivity.
Qed.

End ProcessFileFacts.

(** ** The claims on the walker, the writer and the error log *)

(** C9.  With the start number 0 the run passes over no file: it is the
    run with no start number, which processes every file with the
    extension from the first one on. *)
Theorem start_number_zero_is_no_marker
  (fs : string -> parse_outcome) (directory_path output_csv_file : string)
  (listdir : list string) (w : world) :
  process_directory fs directory_path output_csv_file (Some 0%Z) listdir w
  = process_directory fs directory_path output_csv_file None listdir w
  /\ process_directory fs directory_path output_csv_file (Some 0%Z) listdir w
     = (flush_errors directory_path
          (process_all fs directory_path output_csv_file
             (filter is_xml (sorted listdir)) (w, [])),
        Ok tt).
Proof.
  unfold process_directory. cbn [truthy Z.eqb negb].
  rewrite !walk_started. split; [reflexivity|finish_run].
Qed.

(** C10, as the code has it.  A file for which [ET.parse] raises
    [ParseError] gives the empty list of records and no exception:
    [parse_xml] only prints.  In the walker such a file adds no row to any
    table and no entry to the error log, the handler of the walker not
    being reached. *)
Theorem malformed_file_yields_no_records
  (fs : string -> parse_outcome) (directory_path output_csv_file : string)
  (filename message : string) (w : world) (error_log : list string) :
  fs (os_path_join directory_path filename) = Malformed message ->
  parse_xml fs (os_path_join directory_path filename) w
  = (print ("Error parsing " ++ os_path_join directory_path filename
            ++ ": " ++ message) w,
     Ok [])
  /\ snd (process_file fs directory_path output_csv_file (w, error_log) filename)
     = error_log
  /\ tables (fst (process_file fs directory_path output_csv_file
                    (w, error_log) filename))
     = tables w
  /\ texts (fst (process_file fs directory_path output_csv_file
                   (w, error_log) filename))
     = texts w.
Proof.
  intro H. split.
  - unfold parse_xml. now rewrite H.
  - rewrite (process_file_malformed _ _ _ _ _ _ _ H). repeat split.
Qed.

Lemma malformed_file_yields_no_records_witness :
  parse_xml example_fs (os_path_join "data" "pubmed24n0002.xml") empty_world
  = (print ("Error parsing " ++ os_path_join "data" "pubmed24n0002.xml"
            ++ ": " ++ "syntax error: line 1, column 0") empty_world,
     Ok [])
  /\ snd (process_file example_fs "data" "out.csv" (empty_world, [])
            "pubmed24n0002.xml")
     = []
  /\ tables (fst (process_file example_fs "data" "out.csv" (empty_world, [])
                    "pubmed24n0002.xml"))
     = tables empty_world
  /\ texts (fst (process_file example_fs "data" "out.csv" (empty_world, [])
                   "pubmed24n0002.xml"))
     = texts empty_world.
Proof.
  apply (malformed_file_yields_no_records example_fs "data" "out.csv"
           "pubmed24n0002.xml" "syntax error: line 1, column 0" empty_world []).
  reflexivity.
Defined.

(** C10, as the claim has it: every file whose content fails to parse would
    give the empty list and stay clear of the handler of the walker.  A
    file with a declared encoding that the parser cannot decode fails with
    a [ValueError], which is no [ParseError]: it leaves [parse_xml], and
    the walker logs the file. *)
Lemma undecodable_file_counterexample :
  snd (parse_xml undecodable_fs "data/pubmed24n0001.xml" empty_world)
  = Raise (OtherException "ValueError" "multi-byte encodings are not supported")
  /\ snd (parse_xml undecodable_fs "data/pubmed24n0001.xml" empty_world) <> Ok []
  /\ snd (process_file undecodable_fs "data" "out.csv" (empty_world, [])
            "pubmed24n0001.xml")
     = ["Error processing data/pubmed24n0001.xml: multi-byte encodings are not supported"]
  /\ texts (fst (process_directory undecodable_fs "data" "out.csv" None
                   ["pubmed24n0001.xml"] empty_world))
           "data/error_log.txt"
     = Some ("Error processing data/pubmed24n0001.xml: multi-byte encodings are not supported"
             ++ newline).
Proof.
  split; [reflexivity|]. split; [discriminate|]. split; [reflexivity|].
  vm_compute. reflexivity.
Qed.


(** C1, as the code has it.  Two files are processed, the first gives
    three records and the second does not parse, and the output table is
    absent at the start.  Then the table holds the header and the three
    data rows, the failure of the second file is printed on the console,
    and the run writes no text file: there is no entry for the second file
    and no error log. *)
Theorem malformed_second_file_is_not_logged
  (fs : string -> parse_outcome) (directory_path output_csv_file : string)
  (start_number : option Z) (listdir : list string) (w : world)
  (first second message : string) (records : list record) :
  truthy start_number = false ->
  filter is_xml (sorted listdir) = [first; second] ->
  snd (parse_xml fs (os_path_join directory_path first) w) = Ok records ->
  List.length records = 3 ->
  fs (os_path_join directory_path second) = Malformed message ->
  tables w output_csv_file = None ->
  let run :=
    process_directory fs directory_path output_csv_file start_number listdir w in
  snd run = Ok tt
  /\ tables (fst run) output_csv_file
     = Some (Header ["Date"; "Title"; "Abstract"; "MeshHeading"; "Keywords"]
               :: map row_of records)
  /\ List.length (map row_of records) = 3
  /\ texts (fst run) = texts w
  /\ In ("Error parsing " ++ os_path_join directory_path second ++ ": " ++ message)
        (stdout (fst run)).
Proof.
  intros Hsn Hfiles Hfirst Hlen Hsecond Htable run.
  assert (records <> []) as Hne by (intros ->; discriminate).
  assert (run
          = (print ("Error parsing " ++ os_path_join directory_path second
                    ++ ": " ++ message)
               (print ("Processing file: " ++ os_path_join directory_path second)
                  (save_records_to_csv records output_csv_file
                     (print ("Processing file: "
                             ++ os_path_join directory_path first) w))),
             Ok tt)) as ->.
  { unfold run, process_directory. rewrite Hsn, walk_started, Hfiles.
    unfold completed, process_all. cbn [fold_left].
    rewrite (process_file_records _ _ _ _ _ _ _ Hne Hfirst).
    rewrite (process_file_malformed _ _ _ _ _ _ _ Hsecond).
    reflexivity. }
  cbn [fst snd]. split; [reflexivity|]. split; [|split; [|split]].
  - cbn [tables print]. now apply save_absent.
  - now rewrite length_map.
  - cbn [texts print]. now rewrite (proj1 (save_frame _ _ _)).
  - cbn [stdout print]. apply in_or_app. right. now left.
Qed.

Lemma malformed_second_file_is_not_logged_witness :
  let run :=
    process_directory example_fs "data" "out.csv" None
      ["pubmed24n0002.xml"; "pubmed24n0001.xml"] empty_world in
  snd run = Ok tt
  /\ tables (fst run) "out.csv"
     = Some (Header ["Date"; "Title"; "Abstract"; "MeshHeading"; "Keywords"]
               :: map row_of
                    (List.repeat {| Date := None; Title := Some "Aspirin";
                                    Abstract := None; MeshHeading := None;
                                    Keywords := None |} 3))
  /\ List.length
       (map row_of
          (List.repeat {| Date := None; Title := Some "Aspirin";
                          Abstract := None; MeshHeading := None;
                          Keywords := None |} 3)) = 3
  /\ texts (fst run) = texts empty_world
  /\ In ("Error parsing " ++ os_path_join "data" "pubmed24n0002.xml" ++ ": "
         ++ "syntax error: line 1, column 0")
        (stdout (fst run)).
Proof.
  apply (malformed_second_file_is_not_logged example_fs "data" "out.csv" None
           ["pubmed24n0002.xml"; "pubmed24n0001.xml"] empty_world
           "pubmed24n0001.xml" "pubmed24n0002.xml"
           "syntax error: line 1, column 0");
    reflexivity.
Defined.

(** C1, as the claim has it: after such a run the error log would hold a
    line for the second file.  It holds none, the file does not exist. *)
Lemma malformed_second_file_counterexample :
  let run :=
    process_directory example_fs "data" "out.csv" None
      ["pubmed24n0002.xml"; "pubmed24n0001.xml"] empty_world in
  filter is_xml (sorted ["pubmed24n0002.xml"; "pubmed24n0001.xml"])
  = ["pubmed24n0001.xml"; "pubmed24n0002.xml"]
  /\ (exists records,
        snd (parse_xml example_fs "data/pubmed24n0001.xml" empty_world) = Ok records
        /\ List.length records = 3)
  /\ example_fs "data/pubmed24n0002.xml" = Malformed "syntax error: line 1, column 0"
  /\ ~ (exists content,
          texts (fst run) (os_path_join "data" "error_log.txt") = Some content).
Proof.
  split; [reflexivity|]. split; [eexists; split; reflexivity|].
  split; [reflexivity|]. intros [content H]. discriminate H.
Qed.

(** C5, as the code has it.  The start number is not 0, and in the sorted
    list of the files with the extension, [f] is the first one whose name
    has the prefix of the start number, after the files [pre].  Then the
    run is the run over [f] and the files after it: nothing is printed,
    extracted or logged for the files of [pre].  With no start number the
    run is the one over all the files, [pre] included. *)
Theorem start_marker_skips_earlier_files
  (fs : string -> parse_outcome) (directory_path output_csv_file : string)
  (n : Z) (listdir : list string) (w : world)
  (pre : list string) (f : string) (post : list string) :
  n <> 0%Z ->
  filter is_xml (sorted listdir) = (pre ++ f :: post)%list ->
  Forall (fun g => has_marker n g = false) pre ->
  has_marker n f = true ->
  process_directory fs directory_path output_csv_file (Some n) listdir w
  = (flush_errors directory_path
       (process_all fs directory_path output_csv_file (f :: post) (w, [])),
     Ok tt)
  /\ process_directory fs directory_path output_csv_file None listdir w
     = (flush_errors directory_path
          (process_all fs directory_path output_csv_file (pre ++ f :: post)
             (w, [])),
        Ok tt).
Proof.
  intros Hn Hsplit Hpre Hf. unfold process_directory. split.
  - assert (truthy (Some n) = true) as ->
      by (cbn [truthy]; now apply Z.eqb_neq in Hn as ->).
    rewrite (walk_skipping _ _ _ _ _ _ _ _ _ Hsplit Hpre Hf). finish_run.
  - cbn [truthy]. rewrite walk_started, Hsplit. finish_run.
Qed.

Lemma start_marker_skips_earlier_files_witness :
  process_directory example_fs "data" "out.csv" (Some 2%Z)
    ["pubmed24n0003.xml"; "pubmed24n0001.xml"; "notes.txt"; "pubmed24n0002.xml"]
    empty_world
  = (flush_errors "data"
       (process_all example_fs "data" "out.csv"
          ["pubmed24n0002.xml"; "pubmed24n0003.xml"] (empty_world, [])),
     Ok tt)
  /\ process_directory example_fs "data" "out.csv" None
       ["pubmed24n0003.xml"; "pubmed24n0001.xml"; "notes.txt"; "pubmed24n0002.xml"]
       empty_world
     = (flush_errors "data"
          (process_all example_fs "data" "out.csv"
             (["pubmed24n0001.xml"] ++ "pubmed24n0002.xml" :: ["pubmed24n0003.xml"])
             (empty_world, [])),
        Ok tt).
Proof.
  apply (start_marker_skips_earlier_files example_fs "data" "out.csv" 2
           ["pubmed24n0003.xml"; "pubmed24n0001.xml"; "notes.txt";
            "pubmed24n0002.xml"]
           empty_world ["pubmed24n0001.xml"] "pubmed24n0002.xml"
           ["pubmed24n0003.xml"]).
  - discriminate.
  - reflexivity.
  - repeat constructor.
  - reflexivity.
Defined.

(** C5, as the claim has it: any start number whose prefix is first found
    at the second file makes the run pass over the first file.  With the
    start number 0 the first file is processed all the same. *)
Lemma zero_start_number_counterexample :
  let listdir := ["pubmed24n0000.xml"; "a.xml"] in
  let run := process_directory uniform_fs "data" "out.csv" (Some 0%Z) listdir
               empty_world in
  filter is_xml (sorted listdir) = ["a.xml"; "pubmed24n0000.xml"]
  /\ has_marker 0 "a.xml" = false
  /\ has_marker 0 "pubmed24n0000.xml" = true
  /\ run <> (flush_errors "data"
               (process_all uniform_fs "data" "out.csv" ["pubmed24n0000.xml"]
                  (empty_world, [])),
             Ok tt)
  /\ In "Processing file: data/a.xml" (stdout (fst run))
  /\ (exists rows, tables (fst run) "out.csv" = Some rows /\ List.length rows = 7).
Proof.
  cbv zeta. split; [reflexivity|]. split; [reflexivity|]. split; [reflexivity|].
  split; [|split].
  - intro H. apply (f_equal (fun r => stdout (fst r))) in H.
    vm_compute in H. discriminate H.
  - vm_compute. now left.
  - eexists. split; [vm_compute; reflexivity|reflexivity].
Qed.


Lemma save_records_to_csv_header_once_witness :
  tables (save_records_to_csv [first_record] "out.csv" empty_world) "out.csv"
  = Some [Header ["Date"; "Title"; "Abstract"; "MeshHeading"; "Keywords"];
          Row ["2024-Jan"; "Aspirin"; EmptyString; "Diabetes Mellitus; Insulin";
               "gene therapy"]]
  /\ tables (save_records_to_csv [second_record] "out.csv"
               (save_records_to_csv [first_record] "out.csv" empty_world))
            "out.csv"
     = Some [Header ["Date"; "Title"; "Abstract"; "MeshHeading"; "Keywords"];
             Row ["2024-Jan"; "Aspirin"; EmptyString; "Diabetes Mellitus; Insulin";
                  "gene therapy"];
             Row [EmptyString; "Insulin, revisited"; "Short."; EmptyString;
                  EmptyString]].
Proof.
  split.
  - apply (proj1 (save_records_to_csv_header_once [first_record] "out.csv"
                    empty_world ltac:(discriminate))).
    reflexivity.
  - apply (proj1 (proj2 (save_records_to_csv_header_once [second_record] "out.csv"
                           (save_records_to_csv [first_record] "out.csv" empty_world)
                           ltac:(discriminate)))
             [Header ["Date"; "Title"; "Abstract"; "MeshHeading"; "Keywords"];
              Row ["2024-Jan"; "Aspirin"; EmptyString;
                   "Diabetes Mellitus; Insulin"; "gene therapy"]]).
    reflexivity.
Defined.

(** ** Two runs with failing files *)

(** A file that cannot be read and a file with a descriptor name without
    text each leave one entry, and the second gives no row. *)
Example faulty_run_error_log :
  let run := process_directory faulty_fs "data" "out.csv" None
               ["c.xml"; "b.xml"; "a.xml"] empty_world in
  texts (fst run) "data/error_log.txt"
  = Some ("Error processing data/a.xml: [Errno 13] Permission denied" ++ newline
          ++ "Error processing data/b.xml: sequence item 0: expected str instance, NoneType found"
          ++ newline)
  /\ (exists rows, tables (fst run) "out.csv" = Some rows /\ List.length rows = 4)
  /\ texts (fst run) "out.csv" = None.
Proof.
  cbv zeta. split; [vm_compute; reflexivity|]. split; [|reflexivity].
  eexists. split; [vm_compute; reflexivity|reflexivity].
Qed.

(** A second run with errors replaces the log of the first. *)
Example error_log_replaced :
  let first := fst (process_directory faulty_fs "data" "out.csv" None
                      ["b.xml"; "a.xml"] empty_world) in
  let second := fst (process_directory faulty_fs "data" "out.csv" None
                       ["b.xml"] first) in
  texts second "data/error_log.txt"
  = Some ("Error processing data/b.xml: sequence item 0: expected str instance, NoneType found"
          ++ newline).
Proof. vm_compute. reflexivity. Qed.

(** * Further properties of the program *)

(** ** The field extractors *)

(** X1.  No [AttributeError] leaves [extract_text], whatever [find] does
    with the expression: the result is [None] when the element is [None],
    when nothing is found or when an [AttributeError] is raised on the way,
    and the text of the element found otherwise; an exception of another
    class that [find] raises for the expression comes out as it is. *)
Theorem extract_text_catches_AttributeError
  (find_expr : element -> string -> result (option element))
  (element : option element) (tag : string) :
  (forall msg, extract_text find_expr element tag <> Raise (AttributeError msg))
  /\ extract_text find_expr None tag = Ok None
  /\ forall e,
       extract_text find_expr (Some e) tag
       = match find_expr e tag with
         | Ok (Some c) => Ok (text c)
         | Ok None => Ok None
         | Raise (AttributeError _) => Ok None
         | Raise x => Raise x
         end.
Proof.
  split; [|split; [reflexivity|]].
  - intro msg. unfold extract_text. destruct element as [e|]; [|discriminate].
    destruct (find_expr e tag) as [[c|]|[]]; discriminate.
  - intro e. unfold extract_text.
    destruct (find_expr e tag) as [[c|]|[]]; reflexivity.
Qed.

(** X2.  [extract_date] never raises.  It gives [None] exactly when there
    is no publication date or the publication date lacks a Year child or a
    Month child; a child that is there always gives a string, whether it
    has text or not. *)
Theorem extract_date_absent_iff (pub_date : option element) :
  exists v : option string,
    extract_date pub_date = Ok v
    /\ (v = None <->
        pub_date = None
        \/ exists pd, pub_date = Some pd
                      /\ (find pd [child "Year"] = None
                          \/ find pd [child "Month"] = None)).
Proof.
  destruct pub_date as [pd|].
  - rewrite extract_date_value.
    destruct (find pd [child "Year"]) as [y|] eqn:Ey;
      [destruct (find pd [child "Month"]) as [m|] eqn:Em|];
      eexists; (split; [reflexivity|]); split; intro H.
    + discriminate.
    + destruct H as [H|(pd' & H & [H'|H'])]; [discriminate| |];
        injection H as <-; congruence.
    + right. exists pd. auto.
    + reflexivity.
    + right. exists pd. auto.
    + reflexivity.
  - exists None. split; [reflexivity|]. split; auto.
Qed.

Lemma None_descriptor_iff (mesh_list : element) :
  In None (descriptor_texts mesh_list)
  <-> exists mh d,
        In mh (findall mesh_list [child "MeshHeading"])
        /\ find mh [child "DescriptorName"] = Some d
        /\ text d = None.
Proof.
  unfold descriptor_texts. rewrite in_flat_map. split.
  - intros (mh & Hin & H).
    destruct (find mh [child "DescriptorName"]) as [d|] eqn:E; [|contradiction].
    destruct H as [H|[]]. now exists mh, d.
  - intros (mh & d & Hin & Hd & Ht). exists mh. split; [exact Hin|].
    rewrite Hd. now left.
Qed.

Lemma None_descriptor_dec (items : list (option string)) :
  {In None items} + {~ In None items}.
Proof.
  apply in_dec. decide equality. apply string_dec.
Qed.

(** X3.  [parse_mesh_headings] raises exactly when some heading of the list
    has a descriptor name without text, and what it raises is a
    [TypeError]; without a heading list it returns [None]. *)
Theorem parse_mesh_headings_raises_iff (mesh_list : element) :
  parse_mesh_headings None = Ok None
  /\ ((exists e, parse_mesh_headings (Some mesh_list) = Raise e)
      <-> exists mh d,
            In mh (findall mesh_list [child "MeshHeading"])
            /\ find mh [child "DescriptorName"] = Some d
            /\ text d = None)
  /\ (forall e, parse_mesh_headings (Some mesh_list) = Raise e ->
                exists msg, e = TypeError msg).
Proof.
  split; [reflexivity|]. rewrite <- None_descriptor_iff.
  destruct (None_descriptor_dec (descriptor_texts mesh_list)) as [Hin|Hnot].
  - destruct (parse_mesh_headings_raises _ Hin) as [msg Hr]. split.
    + split; [now intros _|]. intros _. now exists (TypeError msg).
    + intros e He. rewrite Hr in He. injection He as <-. now exists msg.
  - destruct (all_Some _ Hnot) as [names Hnames].
    rewrite (parse_mesh_headings_ok _ _ Hnames). split.
    + split; [intros [e He]; discriminate|contradiction].
    + intros e He. discriminate.
Qed.

(** X4.  When every descriptor name of the heading list has text, the
    field is these texts in document order joined with "; ", headings
    without a descriptor name being passed over, and [None] when no heading
    has a descriptor name. *)
Theorem parse_mesh_headings_joins (mesh_list : element) (names : list string) :
  descriptor_texts mesh_list = map Some names ->
  parse_mesh_headings (Some mesh_list)
  = Ok (match names with
        | [] => None
        | _ => Some (String.concat "; " names)
        end).
Proof. apply parse_mesh_headings_ok. Qed.

Lemma parse_mesh_headings_joins_witness :
  parse_mesh_headings (Some heading_list_of_two)
  = Ok (Some "Diabetes Mellitus; Insulin").
Proof.
  apply (parse_mesh_headings_joins heading_list_of_two
           ["Diabetes Mellitus"; "Insulin"]).
  reflexivity.
Defined.

(** ** Records *)

(** X5.  When the descriptor names of an article all have text, its record
    is built, each field from its own sub-element: the date from the first
    PubDate descendant, the title and the abstract as the text of the first
    ArticleTitle and Abstract/AbstractText, the headings and the keywords
    from the first list of each kind. *)
Theorem record_of_article_fields (article : element) :
  descriptors_have_text article ->
  exists date mesh_headings keywords,
    extract_date (find article [descendant "PubDate"]) = Ok date
    /\ parse_mesh_headings (find article [descendant "MeshHeadingList"])
       = Ok mesh_headings
    /\ parse_keywords (find article [descendant "KeywordList"]) = Ok keywords
    /\ record_of_article article
       = Ok {| Date := date;
               Title := match find article [descendant "ArticleTitle"] with
                        | Some e => text e
                        | None => None
                        end;
               Abstract := match find article [descendant "Abstract";
                                               child "AbstractText"] with
                           | Some e => text e
                           | None => None
                           end;
               MeshHeading := mesh_headings;
               Keywords := keywords |}.
Proof.
  unfold descriptors_have_text, record_of_article. intro H.
  destruct (extract_date_total (find article [descendant "PubDate"])) as [d Hd].
  destruct (parse_keywords_total (find article [descendant "KeywordList"]))
    as [k Hk].
  assert (exists m, parse_mesh_headings (find article [descendant "MeshHeadingList"])
                    = Ok m) as [m Hm].
  { destruct (find article [descendant "MeshHeadingList"]) as [ml|].
    - destruct (all_Some _ H) as [ss Hss].
      rewrite (parse_mesh_headings_ok _ _ Hss). eauto.
    - now exists None. }
  exists d, m, k. rewrite Hd, Hm, Hk. repeat split.
Qed.

Lemma record_of_article_fields_witness :
  exists date mesh_headings keywords,
    extract_date (find plain_article [descendant "PubDate"]) = Ok date
    /\ parse_mesh_headings (find plain_article [descendant "MeshHeadingList"])
       = Ok mesh_headings
    /\ parse_keywords (find plain_article [descendant "KeywordList"]) = Ok keywords
    /\ record_of_article plain_article
       = Ok {| Date := date;
               Title := match find plain_article [descendant "ArticleTitle"] with
                        | Some e => text e
                        | None => None
                        end;
               Abstract := match find plain_article [descendant "Abstract";
                                                     child "AbstractText"] with
                           | Some e => text e
                           | None => None
                           end;
               MeshHeading := mesh_headings;
               Keywords := keywords |}.
Proof. apply (record_of_article_fields plain_article). exact I. Defined.

(** X6.  The one exception that building a record can raise is the
    [TypeError] of the heading list: if [record_of_article] raises, the
    first heading list of the article has a descriptor name without
    text. *)
Theorem record_raise_is_TypeError (article : element) (e : exn) :
  record_of_article article = Raise e ->
  (exists msg, e = TypeError msg)
  /\ exists mesh_list mh d,
       find article [descendant "MeshHeadingList"] = Some mesh_list
       /\ In mh (findall mesh_list [child "MeshHeading"])
       /\ find mh [child "DescriptorName"] = Some d
       /\ text d = None.
Proof.
  intro H. apply record_of_article_raise in H.
  destruct (find article [descendant "MeshHeadingList"]) as [ml|];
    [|discriminate].
  destruct (None_descriptor_dec (descriptor_texts ml)) as [Hin|Hnot].
  - destruct (parse_mesh_headings_raises _ Hin) as [msg Hr].
    rewrite Hr in H. injection H as <-. split; [now exists msg|].
    apply None_descriptor_iff in Hin as (mh & d & Hd). now exists ml, mh, d.
  - destruct (all_Some _ Hnot) as [names Hnames].
    rewrite (parse_mesh_headings_ok _ _ Hnames) in H. discriminate.
Qed.

Lemma record_raise_is_TypeError_witness :
  (exists msg,
      TypeError "sequence item 0: expected str instance, NoneType found"
      = TypeError msg)
  /\ exists mesh_list mh d,
       find article_with_empty_descriptor [descendant "MeshHeadingList"]
       = Some mesh_list
       /\ In mh (findall mesh_list [child "MeshHeading"])
       /\ find mh [child "DescriptorName"] = Some d
       /\ text d = None.
Proof.
  apply (record_raise_is_TypeError article_with_empty_descriptor).
  reflexivity.
Defined.

(** ** Documents *)

(** X7.  When the descriptor names of all the article elements of a parsed
    document have text, [parse_xml] returns, without touching the console
    or any file, one record per article element, the record of that
    article, in document order. *)
Theorem parse_xml_one_record_per_article
  (fs : string -> parse_outcome) (path : string) (w : world) (root : element) :
  fs path = Parsed root ->
  Forall descriptors_have_text (findall root [child "PubmedArticle"]) ->
  exists records,
    parse_xml fs path w = (w, Ok records)
    /\ Forall2 (fun a r => record_of_article a = Ok r)
               (findall root [child "PubmedArticle"]) records
    /\ List.length records = List.length (findall root [child "PubmedArticle"]).
Proof.
  intros Hfs Hall.
  destruct (parse_xml_count fs path w root Hfs Hall) as (records & Hp & Hlen).
  exists records. split; [exact Hp|].
  apply (parse_xml_records fs path w root records Hfs). now rewrite Hp.
Qed.

Lemma parse_xml_one_record_per_article_witness :
  exists records,
    parse_xml example_fs "data/pubmed24n0001.xml" empty_world
    = (empty_world, Ok records)
    /\ Forall2 (fun a r => record_of_article a = Ok r)
               (findall three_article_document [child "PubmedArticle"]) records
    /\ List.length records
       = List.length (findall three_article_document [child "PubmedArticle"]).
Proof.
  apply (parse_xml_one_record_per_article example_fs "data/pubmed24n0001.xml"
           empty_world three_article_document).
  - reflexivity.
  - repeat constructor.
Defined.

Lemma articles_loop_raise_inv (articles : list element) (records : list record)
  (e : exn) :
  articles_loop articles records = Raise e ->
  exists a, In a articles /\ record_of_article a = Raise e.
Proof.
  revert records; induction articles as [|a articles IH]; intros records H;
    simpl in H; [discriminate|].
  destruct (record_of_article a) as [r|e'] eqn:Ha; simpl in H.
  - destruct (IH _ H) as (b & Hin & Hb). exists b. split; [now right|exact Hb].
  - injection H as <-. exists a. split; [now left|exact Ha].
Qed.

(** X8.  An exception leaves [parse_xml] in these cases only: [ET.parse]
    fails with an error of the operating system or raises an exception of
    a class other than [ParseError], and that exception comes out as it
    is; or the file parses and the record of one of its article elements
    cannot be built, and the [TypeError] of that record comes out.  A
    [ParseError] never comes out of it. *)
Theorem parse_xml_raise_cases
  (fs : string -> parse_outcome) (path : string) (w : world) (e : exn) :
  snd (parse_xml fs path w) = Raise e ->
  ((exists msg, fs path = Unreadable msg /\ e = OSError msg)
   \/ (exists cls msg, fs path = Fails cls msg /\ e = OtherException cls msg)
   \/ (exists root article msg,
         fs path = Parsed root
         /\ In article (findall root [child "PubmedArticle"])
         /\ record_of_article article = Raise e
         /\ e = TypeError msg))
  /\ forall msg, e <> ParseError msg.
Proof.
  unfold parse_xml. intro H.
  destruct (fs path) as [root|msg|msg|cls msg]; simpl in H.
  - destruct (articles_loop_raise_inv _ _ _ H) as (a & Hin & Ha).
    assert (exists m, e = TypeError m) as [m Hm].
    { pose proof (record_of_article_raise _ _ Ha) as Hm.
      destruct (find a [descendant "MeshHeadingList"]) as [ml|]; [|discriminate].
      destruct (None_descriptor_dec (descriptor_texts ml)) as [Hn|Hn].
      - destruct (parse_mesh_headings_raises _ Hn) as [m Hr].
        rewrite Hr in Hm. injection Hm as <-. now exists m.
      - destruct (all_Some _ Hn) as [names Hnames].
        rewrite (parse_mesh_headings_ok _ _ Hnames) in Hm. discriminate. }
    split; [|intro; congruence]. right. right. now exists root, a, m.
  - discriminate.
  - injection H as <-. split; [|discriminate]. left. now exists msg.
  - injection H as <-. split; [|discriminate]. right. left. now exists cls, msg.
Qed.

Lemma parse_xml_raise_cases_witness :
  ((exists msg,
       undecodable_fs "data/a.xml" = Unreadable msg
       /\ OtherException "ValueError" "multi-byte encodings are not supported"
          = OSError msg)
   \/ (exists cls msg,
         undecodable_fs "data/a.xml" = Fails cls msg
         /\ OtherException "ValueError" "multi-byte encodings are not supported"
            = OtherException cls msg)
   \/ (exists root article msg,
         undecodable_fs "data/a.xml" = Parsed root
         /\ In article (findall root [child "PubmedArticle"])
         /\ record_of_article article
            = Raise (OtherException "ValueError"
                       "multi-byte encodings are not supported")
         /\ OtherException "ValueError" "multi-byte encodings are not supported"
            = TypeError msg))
  /\ forall msg,
       OtherException "ValueError" "multi-byte encodings are not supported"
       <> ParseError msg.
Proof.
  apply (parse_xml_raise_cases undecodable_fs "data/a.xml" empty_world).
  reflexivity.
Defined.

(** ** One file in the walker *)

Section FileFacts.

Variable fs : string -> parse_outcome.
Variables directory_path output_csv_file : string.

Local Abbreviation process := (process_file fs directory_path output_csv_file).
Local Abbreviation path_of := (os_path_join directory_path).

(** What processing a file does to the tables and to the list of
    entries. *)
Lemma process_file_outcome (w : world) (error_log : list string)
  (filename : string) :
  tables (fst (process (w, error_log) filename)) output_csv_file
  = table_after (tables w output_csv_file) (file_rows fs directory_path filename)
  /\ (forall p, p <> output_csv_file ->
                tables (fst (process (w, error_log) filename)) p = tables w p)
  /\ snd (process (w, error_log) filename)
     = (error_log ++ file_entries fs directory_path filename)%list.
Proof.
  unfold file_rows, file_entries, parse_result.
  rewrite (parse_xml_result fs (path_of filename) empty_world
             (print ("Processing file: " ++ path_of filename) w)).
  unfold process_file.
  pose proof (parse_xml_texts fs (path_of filename)
                (print ("Processing file: " ++ path_of filename) w)) as [_ Ht].
  destruct (parse_xml fs (path_of filename) _) as [w1 r]. cbn [fst snd] in *.
  assert (forall p, tables w1 p = tables w p) as Hto
    by (intro p; now rewrite Ht).
  destruct r as [[|r records]|e]; cbn [fst snd].
  - rewrite app_nil_r. repeat split; [|now intros].
    rewrite Hto. destruct (tables w output_csv_file); cbn [table_after];
      [now rewrite app_nil_r|reflexivity].
  - rewrite app_nil_r. repeat split.
    + rewrite <- (Hto output_csv_file).
      destruct (tables w1 output_csv_file) as [old|] eqn:E; cbn [table_after map].
      * now apply save_existing.
      * now apply save_absent.
    + intros p Hp. rewrite (proj2 (save_frame _ _ _) p Hp). apply Hto.
  - repeat split; cbn [tables print]; [|now intros].
    rewrite Hto. destruct (tables w output_csv_file); cbn [table_after];
      [now rewrite app_nil_r|reflexivity].
Qed.

Lemma table_after_app (before : option (list csv_line)) (a b : list csv_line) :
  table_after (table_after before a) b = table_after before (a ++ b)%list.
Proof.
  destruct before as [old|]; cbn [table_after].
  - now rewrite app_assoc.
  - destruct a as [|x a]; reflexivity.
Qed.

Lemma process_all_outcome (files : list string) (w : world)
  (error_log : list string) :
  tables (fst (process_all fs directory_path output_csv_file files (w, error_log)))
         output_csv_file
  = table_after (tables w output_csv_file)
                (flat_map (file_rows fs directory_path) files)
  /\ (forall p, p <> output_csv_file ->
                tables (fst (process_all fs directory_path output_csv_file files
                               (w, error_log))) p
                = tables w p)
  /\ snd (process_all fs directory_path output_csv_file files (w, error_log))
     = (error_log ++ flat_map (file_entries fs directory_path) files)%list.
Proof.
  revert w error_log; induction files as [|f files IH]; intros w error_log.
  - cbn [process_all fold_left flat_map fst snd]. rewrite app_nil_r.
    repeat split. destruct (tables w output_csv_file); cbn [table_after];
      [now rewrite app_nil_r|reflexivity].
  - unfold process_all. cbn [fold_left flat_map].
    destruct (process_file_outcome w error_log f) as (Ht & Hother & Hlog).
    destruct (process (w, error_log) f) as [w1 log1]. cbn [fst snd] in *.
    subst log1.
    destruct (IH w1 (error_log ++ file_entries fs directory_path f)%list)
      as (Ht' & Hother' & Hlog').
    unfold process_all in *.
    rewrite Ht', Hlog', Ht, table_after_app, <- app_assoc.
    split; [reflexivity|]. split; [|reflexivity].
    intros p Hp. now rewrite (Hother' p Hp), (Hother p Hp).
Qed.

(** X9.  A file that parses to a document with no article element is
    passed over after its progress line: the writer is not called, so no
    table is created or changed, and nothing is logged. *)
Theorem process_file_without_articles (w : world) (error_log : list string)
  (filename : string) (root : element) :
  fs (path_of filename) = Parsed root ->
  findall root [child "PubmedArticle"] = [] ->
  process (w, error_log) filename
  = (print ("Processing file: " ++ path_of filename) w, error_log).
Proof.
  intros Hfs Hnone. unfold process_file.
  rewrite (parse_xml_parsed fs _ _ root Hfs), Hnone. reflexivity.
Qed.

(** X10.  A file for which [parse_xml] raises leaves exactly one entry,
    "Error processing <path>: <message>", at the end of the error log and
    the same line on the console; no table is touched. *)
Theorem process_file_logs_exception (w : world) (error_log : list string)
  (filename : string) (e : exn) :
  snd (parse_xml fs (path_of filename) w) = Raise e ->
  process (w, error_log) filename
  = (print ("Error processing " ++ path_of filename ++ ": " ++ str_of_exn e)
       (print ("Processing file: " ++ path_of filename) w),
     (error_log
        ++ [("Error processing " ++ path_of filename ++ ": "
             ++ str_of_exn e)%string])%list)
  /\ tables (fst (process (w, error_log) filename)) = tables w.
Proof.
  intro H. rewrite (process_file_raise fs directory_path output_csv_file
                      filename w error_log e H).
  split; reflexivity.
Qed.

End FileFacts.

Lemma process_file_without_articles_witness :
  process_file empty_fs "data" "out.csv" (empty_world, []) "pubmed24n0001.xml"
  = (print ("Processing file: " ++ os_path_join "data" "pubmed24n0001.xml")
       empty_world,
     []).
Proof.
  apply (process_file_without_articles empty_fs "data" "out.csv" empty_world []
           "pubmed24n0001.xml" empty_document);
    reflexivity.
Defined.

Lemma process_file_logs_exception_witness :
  process_file faulty_fs "data" "out.csv" (empty_world, []) "a.xml"
  = (print ("Error processing " ++ os_path_join "data" "a.xml" ++ ": "
            ++ str_of_exn (OSError "[Errno 13] Permission denied"))
       (print ("Processing file: " ++ os_path_join "data" "a.xml") empty_world),
     ([] ++ [("Error processing " ++ os_path_join "data" "a.xml" ++ ": "
              ++ str_of_exn (OSError "[Errno 13] Permission denied"))%string])%list)
  /\ tables (fst (process_file faulty_fs "data" "out.csv" (empty_world, [])
                    "a.xml"))
     = tables empty_world.
Proof.
  apply (process_file_logs_exception faulty_fs "data" "out.csv" empty_world []
           "a.xml" (OSError "[Errno 13] Permission denied")).
  reflexivity.
Defined.

(** ** The order of the directory entries *)

Lemma leb_cases (a b : string) :
  (a <=? b)%string = true <-> a = b \/ String_as_OT.lt a b.
Proof.
  unfold String.leb. destruct (String.compare a b) eqn:E.
  - split; [|reflexivity]. intros _. left. now apply String_as_OT.cmp_eq.
  - split; [|reflexivity]. intros _. right. now apply String_as_OT.cmp_lt.
  - split; [discriminate|]. intros [H|H].
    + apply String_as_OT.cmp_eq in H. unfold String_as_OT.cmp in H. congruence.
    + apply String_as_OT.cmp_lt in H. unfold String_as_OT.cmp in H. congruence.
Qed.

Lemma leb_trans (a b c : string) :
  (a <=? b)%string = true -> (b <=? c)%string = true -> (a <=? c)%string = true.
Proof.
  rewrite !leb_cases. intros [->|Hab] [->|Hbc]; auto.
  right. eapply String_as_OT.lt_trans; eauto.
Qed.

Ltac leb_saturate :=
  repeat match goal with
         | H : (?a <=? ?b)%string = false |- _ =>
             lazymatch goal with
             | _ : (b <=? a)%string = true |- _ => fail
             | _ => assert ((b <=? a)%string = true)
                 by (destruct (String.leb_total a b); congruence)
             end
         | H1 : (?a <=? ?b)%string = true, H2 : (?b <=? ?c)%string = true |- _ =>
             lazymatch goal with
             | _ : (a <=? c)%string = true |- _ => fail
             | _ => pose proof (leb_trans _ _ _ H1 H2)
             end
         end.

Ltac leb_order :=
  leb_saturate;
  repeat match goal with
         | H1 : (?a <=? ?b)%string = true, H2 : (?b <=? ?a)%string = true |- _ =>
             let E := fresh in
             pose proof (String.leb_antisym _ _ H1 H2) as E;
             clear H1 H2; try subst a; try subst b
         end;
  try congruence.

Lemma insert_sorted_comm (x y : string) (l : list string) :
  insert_sorted x (insert_sorted y l) = insert_sorted y (insert_sorted x l).
Proof.
  induction l as [|z l IH]; simpl.
  - destruct (x <=? y)%string eqn:Exy, (y <=? x)%string eqn:Eyx;
      try reflexivity; leb_order.
  - destruct (x <=? z)%string eqn:Exz, (y <=? z)%string eqn:Eyz; simpl;
      destruct (x <=? y)%string eqn:Exy, (y <=? x)%string eqn:Eyx;
      rewrite ?Exz, ?Eyz; try reflexivity; try (now rewrite IH); leb_order.
Qed.

Lemma sorted_Permutation (l1 l2 : list string) :
  Permutation l1 l2 -> sorted l1 = sorted l2.
Proof.
  induction 1 as [|x l1 l2 _ IH|x y l|l1 l2 l3 _ IH1 _ IH2]; simpl.
  - reflexivity.
  - now rewrite IH.
  - apply insert_sorted_comm.
  - congruence.
Qed.

Lemma filter_insert_other (x : string) (l : list string) :
  is_xml x = false ->
  filter is_xml (insert_sorted x l) = filter is_xml l.
Proof.
  intro Hx. induction l as [|y l IH]; cbn [insert_sorted filter].
  - now rewrite Hx.
  - destruct (x <=? y)%string; cbn [filter]; [now rewrite Hx|].
    now rewrite IH.
Qed.

(** ** Whole runs *)

Section RunFacts.

Variable fs : string -> parse_outcome.
Variables directory_path output_csv_file : string.

Local Abbreviation walk_from := (walk fs directory_path output_csv_file).
Local Abbreviation run_files := (process_all fs directory_path output_csv_file).
Local Abbreviation run := (process_directory fs directory_path output_csv_file).
Local Abbreviation rows_of := (file_rows fs directory_path).
Local Abbreviation entries_of := (file_entries fs directory_path).

Lemma walk_waiting (n : Z) (names : list string) (st : world * list string) :
  walk_from (Some n) names false st
  = completed (run_files (from_marker n (filter is_xml names)) st).
Proof.
  induction names as [|x names IH]; [reflexivity|].
  cbn [filter]. destruct (is_xml x) eqn:E.
  - rewrite walk_xml_waiting by exact E. cbn [from_marker].
    destruct (has_marker n x); [|exact IH].
    now rewrite walk_started.
  - rewrite walk_other by exact E. exact IH.
Qed.

Lemma walk_files (start_number : option Z) (names : list string)
  (st : world * list string) :
  walk_from start_number names (if truthy start_number then false else true) st
  = completed (run_files (files_processed start_number names) st).
Proof.
  destruct start_number as [n|]; cbn [truthy files_processed].
  - destruct (n =? 0)%Z; cbn [negb].
    + apply walk_started.
    + apply walk_waiting.
  - apply walk_started.
Qed.

Lemma process_directory_run (start_number : option Z) (listdir : list string)
  (w : world) :
  run start_number listdir w
  = (flush_errors directory_path
       (run_files (files_processed start_number (sorted listdir)) (w, [])),
     Ok tt).
Proof.
  unfold process_directory. rewrite walk_files. unfold completed.
  now destruct (run_files _ _).
Qed.

Lemma flush_errors_tables (st : world * list string) :
  tables (flush_errors directory_path st) = tables (fst st).
Proof.
  destruct st as [w [|e error_log]]; [reflexivity|].
  apply (flush_errors_some directory_path w (e :: error_log)). discriminate.
Qed.

Lemma process_directory_table (start_number : option Z) (listdir : list string)
  (w : world) :
  tables (fst (run start_number listdir w)) output_csv_file
  = table_after (tables w output_csv_file)
      (flat_map rows_of (files_processed start_number (sorted listdir)))
  /\ forall p, p <> output_csv_file ->
               tables (fst (run start_number listdir w)) p = tables w p.
Proof.
  rewrite process_directory_run. cbn [fst]. rewrite flush_errors_tables.
  destruct (process_all_outcome fs directory_path output_csv_file
              (files_processed start_number (sorted listdir)) w [])
    as (Ht & Hother & _).
  split; assumption.
Qed.

Lemma from_marker_none (n : Z) (files : list string) :
  Forall (fun g => has_marker n g = false) files -> from_marker n files = [].
Proof.
  induction 1 as [|f files Hf _ IH]; cbn [from_marker]; [reflexivity|].
  now rewrite Hf.
Qed.

(** X11.  [process_directory] always runs to its end, and a run is this:
    of the directory entries with the extension, in sorted order, the ones
    from the first with the prefix of the start number on (all of them when
    the start number is [None] or 0) are processed one after the other,
    and the error log is written last. *)
Theorem process_directory_files_processed (start_number : option Z)
  (listdir : list string) (w : world) :
  run start_number listdir w
  = (flush_errors directory_path
       (fold_left (process_file fs directory_path output_csv_file)
          (files_processed start_number (sorted listdir)) (w, [])),
     Ok tt).
Proof. apply process_directory_run. Qed.

(** X12.  With a start number other than 0 whose prefix no file of the
    directory has, the run does nothing at all: nothing is printed, no
    table and no error log is written, and no error is raised. *)
Theorem unmatched_start_number_does_nothing (n : Z) (listdir : list string)
  (w : world) :
  n <> 0%Z ->
  Forall (fun g => has_marker n g = false) (filter is_xml (sorted listdir)) ->
  run (Some n) listdir w = (w, Ok tt).
Proof.
  intros Hn Hnone. rewrite process_directory_run. cbn [files_processed].
  apply Z.eqb_neq in Hn as ->. now rewrite (from_marker_none _ _ Hnone).
Qed.

(** X13.  A directory entry whose name does not end in ".xml" has no
    effect on the run. *)
Theorem other_entries_are_ignored (start_number : option Z) (x : string)
  (listdir : list string) (w : world) :
  is_xml x = false ->
  run start_number (x :: listdir) w = run start_number listdir w.
Proof.
  intro Hx. rewrite !process_directory_run.
  assert (files_processed start_number (sorted (x :: listdir))
          = files_processed start_number (sorted listdir)) as ->; [|reflexivity].
  unfold files_processed. cbn [sorted].
  now rewrite (filter_insert_other _ _ Hx).
Qed.

(** X14.  The run does not depend on the order in which the directory
    entries are listed. *)
Theorem listing_order_is_irrelevant (start_number : option Z)
  (listdir listdir' : list string) (w : world) :
  Permutation listdir listdir' ->
  run start_number listdir w = run start_number listdir' w.
Proof.
  intro H. unfold process_directory. now rewrite (sorted_Permutation _ _ H).
Qed.

(** X15.  The output table after a run is the table before it with the
    data rows of the processed files added at its end, in the order of the
    files; for a table that was absent the header comes first, and the
    table stays absent when no processed file gives a record.  No other
    table changes. *)
Theorem output_table_after_run (start_number : option Z) (listdir : list string)
  (w : world) :
  tables (fst (run start_number listdir w)) output_csv_file
  = table_after (tables w output_csv_file)
      (flat_map rows_of (files_processed start_number (sorted listdir)))
  /\ forall p, p <> output_csv_file ->
               tables (fst (run start_number listdir w)) p = tables w p.
Proof. apply process_directory_table. Qed.

(** X16.  Nothing is deduplicated: a second run over the same directory
    adds the data rows of the first run once more. *)
Theorem second_run_adds_rows_again (start_number : option Z)
  (listdir : list string) (w : world) :
  let rows := flat_map rows_of (files_processed start_number (sorted listdir)) in
  tables (fst (run start_number listdir (fst (run start_number listdir w))))
         output_csv_file
  = table_after (tables w output_csv_file) (rows ++ rows)%list.
Proof.
  cbv zeta.
  rewrite (proj1 (process_directory_table start_number listdir
                    (fst (run start_number listdir w)))).
  rewrite (proj1 (process_directory_table start_number listdir w)).
  apply table_after_app.
Qed.

(** X17.  Every processed file for which [parse_xml] raises has its line
    in the error log of the run: after the run the file [error_log.txt]
    of the directory is there, it is made of entries each ended by a line
    break, and "Error processing <path>: <message>" for that file and its
    exception is one of them. *)
Theorem raising_file_is_in_error_log (start_number : option Z)
  (listdir : list string) (w : world) (filename : string) (e : exn) :
  In filename (files_processed start_number (sorted listdir)) ->
  snd (parse_xml fs (os_path_join directory_path filename) w) = Raise e ->
  exists entries,
    texts (fst (run start_number listdir w)) (error_log_file directory_path)
    = Some (unlines entries)
    /\ In ("Error processing " ++ os_path_join directory_path filename ++ ": "
           ++ str_of_exn e)
          entries.
Proof.
  intros Hin He. rewrite process_directory_run. cbn [fst].
  destruct (process_all_outcome fs directory_path output_csv_file
              (files_processed start_number (sorted listdir)) w [])
    as (_ & _ & Hlog).
  destruct (run_files _ _) as [w1 error_log]. cbn [fst snd app] in *.
  subst error_log.
  assert (In ("Error processing " ++ os_path_join directory_path filename ++ ": "
              ++ str_of_exn e)
             (flat_map entries_of (files_processed start_number (sorted listdir))))
    as Hentry.
  { apply in_flat_map. exists filename. split; [exact Hin|].
    unfold file_entries, parse_result.
    rewrite (parse_xml_result fs _ empty_world w), He. now left. }
  exists (flat_map entries_of (files_processed start_number (sorted listdir))).
  split; [|exact Hentry].
  apply (flush_errors_some directory_path w1). intro Hnil.
  rewrite Hnil in Hentry. contradiction.
Qed.

End RunFacts.

Lemma unmatched_start_number_does_nothing_witness :
  process_directory uniform_fs "data" "out.csv" (Some 7%Z)
    ["pubmed24n0001.xml"; "pubmed24n0002.xml"; "notes.txt"] empty_world
  = (empty_world, Ok tt).
Proof.
  apply (unmatched_start_number_does_nothing uniform_fs "data" "out.csv" 7
           ["pubmed24n0001.xml"; "pubmed24n0002.xml"; "notes.txt"] empty_world).
  - discriminate.
  - repeat constructor.
Defined.

Lemma other_entries_are_ignored_witness :
  process_directory example_fs "data" "out.csv" None
    ["error_log.txt"; "pubmed24n0002.xml"; "pubmed24n0001.xml"] empty_world
  = process_directory example_fs "data" "out.csv" None
      ["pubmed24n0002.xml"; "pubmed24n0001.xml"] empty_world.
Proof.
  apply (other_entries_are_ignored example_fs "data" "out.csv" None
           "error_log.txt" ["pubmed24n0002.xml"; "pubmed24n0001.xml"]
           empty_world).
  reflexivity.
Defined.

Lemma listing_order_is_irrelevant_witness :
  process_directory example_fs "data" "out.csv" None
    ["pubmed24n0002.xml"; "pubmed24n0001.xml"] empty_world
  = process_directory example_fs "data" "out.csv" None
      ["pubmed24n0001.xml"; "pubmed24n0002.xml"] empty_world.
Proof.
  apply (listing_order_is_irrelevant example_fs "data" "out.csv" None
           ["pubmed24n0002.xml"; "pubmed24n0001.xml"]
           ["pubmed24n0001.xml"; "pubmed24n0002.xml"] empty_world).
  apply perm_swap.
Defined.

Lemma raising_file_is_in_error_log_witness :
  exists entries,
    texts (fst (process_directory faulty_fs "data" "out.csv" None
                  ["c.xml"; "b.xml"; "a.xml"] empty_world))
          (error_log_file "data")
    = Some (unlines entries)
    /\ In ("Error processing " ++ os_path_join "data" "a.xml" ++ ": "
           ++ str_of_exn (OSError "[Errno 13] Permission denied"))
          entries.
Proof.
  apply (raising_file_is_in_error_log faulty_fs "data" "out.csv" None
           ["c.xml"; "b.xml"; "a.xml"] empty_world "a.xml"
           (OSError "[Errno 13] Permission denied")).
  - now left.
  - reflexivity.
Defined.

(** ** The writer alone *)

(** X18.  A call of the writer changes the destination table and nothing
    else: every other table and every text file is as before, and the
    console has one more line, naming the destination. *)
Theorem save_records_to_csv_changes_only_destination
  (records : list record) (output_file : string) (w : world) :
  (forall p, p <> output_file ->
             tables (save_records_to_csv records output_file w) p = tables w p)
  /\ texts (save_records_to_csv records output_file w) = texts w
  /\ stdout (save_records_to_csv records output_file w)
     = (stdout w ++ [("Data successfully saved to " ++ output_file)%string])%list.
Proof.
  destruct (save_frame records output_file w) as [Ht Hother].
  split; [exact Hother|]. split; [exact Ht|].
  unfold save_records_to_csv. now destruct (tables w output_file).
Qed.

(** ** One faulty article, and tables that are there already *)

Lemma articles_loop_Exists (articles : list element) (records : list record) :
  Exists (fun a => exists e, record_of_article a = Raise e) articles ->
  exists e, articles_loop articles records = Raise e.
Proof.
  revert records; induction articles as [|a articles IH]; intros records H;
    [inversion H|].
  cbn [articles_loop]. destruct (record_of_article a) as [r|e] eqn:Ha; cbn [bind].
  - apply IH. inversion H as [? ? [e He]|]; subst; [congruence|assumption].
  - now exists e.
Qed.

Lemma record_of_article_raises (article mesh_list mh d : element) :
  find article [descendant "MeshHeadingList"] = Some mesh_list ->
  In mh (findall mesh_list [child "MeshHeading"]) ->
  find mh [child "DescriptorName"] = Some d ->
  text d = None ->
  exists msg, record_of_article article = Raise (TypeError msg).
Proof.
  intros Hml Hmh Hd Ht. unfold record_of_article.
  destruct (extract_date_total (find article [descendant "PubDate"])) as [v ->].
  rewrite Hml.
  assert (In None (descriptor_texts mesh_list)) as Hin
    by (apply None_descriptor_iff; now exists mh, d).
  destruct (parse_mesh_headings_raises _ Hin) as [msg ->]. now exists msg.
Qed.

Lemma count_headers_file_rows (fs : string -> parse_outcome)
  (directory_path : string) (files : list string) :
  count_headers (flat_map (file_rows fs directory_path) files) = 0.
Proof.
  induction files as [|f files IH]; [reflexivity|].
  cbn [flat_map]. rewrite count_headers_app, IH. unfold file_rows.
  destruct (parse_result fs directory_path f);
    [now rewrite count_headers_rows|reflexivity].
Qed.

(** X19.  One article is enough to lose a file: when some article element
    of a parsed file has a heading with a descriptor name without text, no
    record of the file reaches the table, also not those of the articles
    before it, and the file leaves one entry in the error log, with the
    message of a [TypeError]. *)
Theorem one_faulty_article_loses_the_file
  (fs : string -> parse_outcome) (directory_path output_csv_file : string)
  (w : world) (error_log : list string) (filename : string) (root : element) :
  fs (os_path_join directory_path filename) = Parsed root ->
  Exists (fun article =>
            exists mesh_list mh d,
              find article [descendant "MeshHeadingList"] = Some mesh_list
              /\ In mh (findall mesh_list [child "MeshHeading"])
              /\ find mh [child "DescriptorName"] = Some d
              /\ text d = None)
         (findall root [child "PubmedArticle"]) ->
  exists msg,
    process_file fs directory_path output_csv_file (w, error_log) filename
    = (print ("Error processing " ++ os_path_join directory_path filename
              ++ ": " ++ msg)
         (print ("Processing file: " ++ os_path_join directory_path filename) w),
       (error_log
          ++ [("Error processing " ++ os_path_join directory_path filename
               ++ ": " ++ msg)%string])%list)
    /\ snd (parse_xml fs (os_path_join directory_path filename) w)
       = Raise (TypeError msg).
Proof.
  intros Hfs Hbad.
  assert (exists e, articles_loop (findall root [child "PubmedArticle"]) []
                    = Raise e) as [e He].
  { apply articles_loop_Exists. eapply Exists_impl; [|exact Hbad].
    intros a (ml & mh & d & Hml & Hmh & Hd & Ht).
    destruct (record_of_article_raises a ml mh d Hml Hmh Hd Ht) as [msg Hr].
    now exists (TypeError msg). }
  assert (snd (parse_xml fs (os_path_join directory_path filename) w) = Raise e)
    as Hp by (rewrite (parse_xml_parsed fs _ w root Hfs); exact He).
  assert (exists msg, e = TypeError msg) as [msg ->].
  { destruct (articles_loop_raise_inv _ _ _ He) as (a & _ & Ha).
    apply record_of_article_raise in Ha.
    destruct (find a [descendant "MeshHeadingList"]) as [ml|]; [|discriminate].
    destruct (None_descriptor_dec (descriptor_texts ml)) as [Hn|Hn].
    - destruct (parse_mesh_headings_raises _ Hn) as [m Hr].
      rewrite Hr in Ha. injection Ha as <-. now exists m.
    - destruct (all_Some _ Hn) as [names Hnames].
      rewrite (parse_mesh_headings_ok _ _ Hnames) in Ha. discriminate. }
  exists msg. split; [|exact Hp].
  now rewrite (process_file_raise fs directory_path output_csv_file filename
                 w error_log _ Hp).
Qed.

Lemma one_faulty_article_loses_the_file_witness :
  exists msg,
    process_file faulty_fs "data" "out.csv" (empty_world, []) "b.xml"
    = (print ("Error processing " ++ os_path_join "data" "b.xml" ++ ": " ++ msg)
         (print ("Processing file: " ++ os_path_join "data" "b.xml") empty_world),
       ([] ++ [("Error processing " ++ os_path_join "data" "b.xml"
                ++ ": " ++ msg)%string])%list)
    /\ snd (parse_xml faulty_fs (os_path_join "data" "b.xml") empty_world)
       = Raise (TypeError msg).
Proof.
  apply (one_faulty_article_loses_the_file faulty_fs "data" "out.csv"
           empty_world [] "b.xml" two_article_document).
  - reflexivity.
  - apply Exists_cons_tl, Exists_cons_hd.
    exists empty_descriptor_list,
      (Element "MeshHeading" None [Element "DescriptorName" None []]),
      (Element "DescriptorName" None []).
    repeat split. now left.
Defined.

(** X20.  A run over a directory never adds a header to an output table
    that is there already, and never removes or changes a row of it: the
    table afterwards is the table before followed by data rows only. *)
Theorem existing_table_is_only_extended
  (fs : string -> parse_outcome) (directory_path output_csv_file : string)
  (start_number : option Z) (listdir : list string) (w : world)
  (old : list csv_line) :
  tables w output_csv_file = Some old ->
  exists rows,
    tables (fst (process_directory fs directory_path output_csv_file
                   start_number listdir w)) output_csv_file
    = Some (old ++ rows)%list
    /\ count_headers rows = 0
    /\ count_headers (old ++ rows) = count_headers old.
Proof.
  intro Hold.
  exists (flat_map (file_rows fs directory_path)
            (files_processed start_number (sorted listdir))).
  rewrite (proj1 (process_directory_table fs directory_path output_csv_file
                    start_number listdir w)), Hold.
  split; [reflexivity|].
  rewrite count_headers_app, count_headers_file_rows. split; [reflexivity|lia].
Qed.

Lemma existing_table_is_only_extended_witness :
  exists rows,
    tables (fst (process_directory example_fs "data" "out.csv" None
                   ["pubmed24n0001.xml"]
                   (save_records_to_csv [first_record] "out.csv" empty_world)))
           "out.csv"
    = Some ([Header column_names; row_of first_record] ++ rows)%list
    /\ count_headers rows = 0
    /\ count_headers ([Header column_names; row_of first_record] ++ rows)
       = count_headers [Header column_names; row_of first_record].
Proof.
  apply (existing_table_is_only_extended example_fs "data" "out.csv" None
           ["pubmed24n0001.xml"]
           (save_records_to_csv [first_record] "out.csv" empty_world)).
  reflexivity.
Defined.
